(** * GHClient: a key/value store over a repository-contents API

    Shallow embedding of [src/GHClient.ts].  The class wraps an Octokit
    client; every method is an [async] function that issues requests to
    the remote service and classifies the errors they raise.

    Modelling choices.
    - JavaScript strings are Rocq [string]s.
    - The remote service is a state machine: a request takes it from one
      state to the next and yields a response or throws.  Operations pass
      that state along explicitly and record every request they issue.
    - A [while] loop takes fuel; [None] means the fuel ran out while the
      loop was still running.
    - The helpers of [helpers/GHClientHelpers] and the messages of
      [constants/ErrorMessages] are parameters of the development. *)

From Stdlib Require Import String Ascii List ZArith Bool Lia NArith.
Import ListNotations.
Local Open Scope string_scope.
Local Open Scope Z_scope.

Set Implicit Arguments.

(** ** Data exchanged with the remote service *)

(** [interface Committer]. *)
Record Committer := mkCommitter {
  name  : string;
  email : string
}.

(** The fields of [OctokitGetEndpointData] the client reads.  Either can
    be [undefined] at run time. *)
Record OctokitGetEndpointData := mkData {
  sha     : option string;
  content : option string
}.

(** [getResponse.data]: one entry, or an array of entries for a folder. *)
Inductive ResponseData :=
| DObject (o : OctokitGetEndpointData)
| DArray  (l : list OctokitGetEndpointData).

(** A value thrown by the remote client.  [status] is [None] when the
    thrown value carries no numeric status. *)
Record Thrown := mkThrown {
  status  : option Z;
  message : string
}.

(** The requests the client sends; the commit message, which embeds the
    current time, is left out. *)
Inductive Request :=
| GET    (owner repo path : string)
| PUT    (owner repo path : string) (committer : option Committer)
         (content : string) (sha : option string)
| DELETE (owner repo path : string) (committer : option Committer)
         (sha : option string).

(** What awaiting a request gives: the response data, or a thrown value. *)
Inductive Response :=
| Ok    (data : ResponseData)
| Throw (error : Thrown).

(** One request as seen on the wire.  [awaited] is [false] when the
    caller did not wait for the call that sent it. *)
Record Event := mkEvent {
  request : Request;
  awaited : bool
}.

(** The value a promise is rejected with: a string, or the thrown value
    itself. *)
Inductive Reason :=
| RString (s : string)
| RThrown (e : Thrown).

(** How a promise settles. *)
Inductive Outcome (A : Type) :=
| Resolved (a : A)
| Rejected (r : Reason).
Arguments Resolved {A} a.
Arguments Rejected {A} r.

(** ** JavaScript primitives *)

(** Truthiness of a [string | undefined]. *)
Definition truthy (s : option string) : bool :=
  match s with
  | Some s' => negb (s' =? "")%string
  | None => false
  end.

(** The string behind a truthy value. *)
Definition str (s : option string) : string :=
  match s with
  | Some s' => s'
  | None => ""
  end.

(** [Array.isArray]. *)
Definition isArray (d : ResponseData) : bool :=
  match d with
  | DArray _ => true
  | DObject _ => false
  end.

(** [const { sha } = data]: an array has no such property. *)
Definition data_sha (d : ResponseData) : option string :=
  match d with
  | DObject o => sha o
  | DArray _ => None
  end.

(** [const { content } = data]. *)
Definition data_content (d : ResponseData) : option string :=
  match d with
  | DObject o => content o
  | DArray _ => None
  end.

(** [status === n]. *)
Definition status_is (e : Thrown) (n : Z) : bool :=
  match status e with
  | Some s => s =? n
  | None => false
  end.

(** ** The client *)

(** The private fields of [GHClient]. *)
Record GHClient := mkClient {
  owner     : string;
  repo      : string;
  committer : option Committer
}.

(** [interface Configuration]. *)
Record Configuration := mkConfiguration {
  cfg_owner : string;
  cfg_repo  : string;
  personalAccessToken : string;
  cfg_committer : option Committer
}.

(** [constructor]: [args.committer || DEFAULT_COMMITTER]. *)
Definition new_GHClient (DEFAULT_COMMITTER : option Committer)
    (args : Configuration) : GHClient :=
  {| owner := cfg_owner args;
     repo := cfg_repo args;
     committer := match cfg_committer args with
                  | Some c => Some c
                  | None => DEFAULT_COMMITTER
                  end |}.

Definition MAX_API_ATTEMPTS : Z := 10.

(** The remote service behind [this.octokit.request]: its states and what
    one request does to them. *)
Class Octokit := {
  World : Type;
  octokit_request : Request -> World -> Response * World
}.

(** The functions imported from [helpers/GHClientHelpers]. *)
Class Helpers := {
  validStorageKey : string -> bool;
  isGithubApiError : Thrown -> bool;
  convertStringToBase64 : string -> string;
  convertBase64ToString : string -> string
}.

(** The constants imported from [constants/ErrorMessages]. *)
Class ErrorMessages := {
  BAD_CREDENTIALS_MESSAGE : string;
  INTERNAL_ERROR_MESSAGE : string;
  GITHUB_API_ERROR_MESSAGE : string;
  OBJECT_NOT_FOUND_MESSAGE : string;
  INVALID_KEY_MESSAGE : string
}.

Section Client.

Context {remote : Octokit} {helpers : Helpers} {messages : ErrorMessages}.
Variable this : GHClient.

(** *** Computations against the remote service

    A computation takes the state of the service and gives a result,
    the next state and the requests sent, oldest first. *)
Definition M (A : Type) : Type := World -> A * World * list Event.

Definition ret {A} (a : A) : M A := fun w => (a, w, []).

Definition bind {A B} (m : M A) (k : A -> M B) : M B :=
  fun w =>
    let '(a, w1, t1) := m w in
    let '(b, w2, t2) := k a w1 in
    (b, w2, (t1 ++ t2)%list).

(** [this.octokit.request(...)], awaited. *)
Definition send (r : Request) : M Response :=
  fun w => let '(resp, w') := octokit_request r w in (resp, w', [mkEvent r true]).

(** Calling an [async] function without [await]: its requests go out,
    nobody waits for them and its result is dropped. *)
Definition detach {A} (m : M A) : M unit :=
  fun w =>
    let '(_, w', t) := m w in
    (tt, w', map (fun e => mkEvent (request e) false) t).

Notation "x <- m ;; k" := (bind m (fun x => k))
  (at level 61, m at next level, right associativity).

(** The three parts of what a computation gives. *)
Definition result {A} (r : A * World * list Event) : A := fst (fst r).
Definition world {A} (r : A * World * list Event) : World := snd (fst r).
Definition trace {A} (r : A * World * list Event) : list Event := snd r.

(** *** Private methods *)

Definition getObjectOctokit (key : string) : M Response :=
  send (GET (owner this) (repo this) key).

Definition listObjectsOctokit (key : string) : M Response :=
  getObjectOctokit key.

Definition deleteObjectOctokit (key : string) (sha : option string)
    : M Response :=
  send (DELETE (owner this) (repo this) key (committer this) sha).

(** The [content] field of [generateUploadParams]. *)
Definition generateUploadParams (value : string) : string :=
  convertStringToBase64 value.

(** Every error of the request is caught and turned into [false]. *)
Definition replaceObjectOctokit (key value sha : string) : M bool :=
  resp <- send (PUT (owner this) (repo this) key (committer this)
                    (generateUploadParams value) (Some sha)) ;;
  match resp with
  | Ok _ => ret true
  | Throw _ => ret false
  end.

Definition uploadNewObjectOctokit (key value : string) : M bool :=
  resp <- send (PUT (owner this) (repo this) key (committer this)
                    (generateUploadParams value) None) ;;
  match resp with
  | Ok _ => ret true
  | Throw _ => ret false
  end.

(** *** [putObject] *)

(** The [while] loop and the statement after it.  [remainingAttempts]
    is passed along as the source leaves it. *)
Fixpoint putObject_while (fuel : nat) (key value : string)
    (success : bool) (remainingAttempts : Z) : M (option (Outcome unit)) :=
  if negb success && (0 <? remainingAttempts) then
    match fuel with
    | O => ret None
    | S fuel' =>
        getResponse <- getObjectOctokit key ;;
        match getResponse with
        | Ok data =>
            if truthy (data_sha data) then
              _ <- replaceObjectOctokit key value (str (data_sha data)) ;;
              putObject_while fuel' key value true remainingAttempts
            else if isArray data then
              ret (Some (Rejected (RString "Cannot replace value of a folder")))
            else
              putObject_while fuel' key value true remainingAttempts
        | Throw error =>
            if negb (isGithubApiError error) then
              ret (Some (Rejected (RString INTERNAL_ERROR_MESSAGE)))
            else if status_is error 404 then
              _ <- detach (uploadNewObjectOctokit key value) ;;
              putObject_while fuel' key value true remainingAttempts
            else if status_is error 401 then
              ret (Some (Rejected (RString BAD_CREDENTIALS_MESSAGE)))
            else
              putObject_while fuel' key value success remainingAttempts
        end
    end
  else if negb success then
    ret (Some (Rejected (RString GITHUB_API_ERROR_MESSAGE)))
  else
    ret (Some (Resolved tt)).

Definition putObject (fuel : nat) (key value : string)
    : M (option (Outcome unit)) :=
  if negb (validStorageKey key) then
    ret (Some (Rejected (RString INVALID_KEY_MESSAGE)))
  else
    putObject_while fuel key value false MAX_API_ATTEMPTS.

(** *** [removeObject] *)

Fixpoint removeObject_while (fuel : nat) (key : string)
    (success : bool) (remainingAttempts : Z)
    : M (option (Outcome (option string))) :=
  if negb success && (0 <? remainingAttempts) then
    match fuel with
    | O => ret None
    | S fuel' =>
        let catch (error : Thrown) : M (option (Outcome (option string))) :=
          if negb (isGithubApiError error) then
            ret (Some (Rejected (RString INTERNAL_ERROR_MESSAGE)))
          else if status_is error 404 then
            removeObject_while fuel' key true remainingAttempts
          else if status_is error 401 then
            ret (Some (Rejected (RString BAD_CREDENTIALS_MESSAGE)))
          else
            ret (Some (Rejected (RString (message error)))) in
        getResponse <- getObjectOctokit key ;;
        match getResponse with
        | Ok data =>
            deleteResponse <- deleteObjectOctokit key (data_sha data) ;;
            match deleteResponse with
            | Ok _ => ret (Some (Resolved (data_content data)))
            | Throw error => catch error
            end
        | Throw error => catch error
        end
    end
  else
    ret (Some (Rejected (RString GITHUB_API_ERROR_MESSAGE))).

Definition removeObject (fuel : nat) (key : string)
    : M (option (Outcome (option string))) :=
  if negb (validStorageKey key) then
    ret (Some (Rejected (RString INVALID_KEY_MESSAGE)))
  else
    removeObject_while fuel key false MAX_API_ATTEMPTS.

(** *** [getObject] *)

Definition getObject (key : string) : M (Outcome string) :=
  if negb (validStorageKey key) then
    ret (Rejected (RString INVALID_KEY_MESSAGE))
  else
    getResponse <- getObjectOctokit key ;;
    match getResponse with
    | Ok data =>
        if isArray data then
          ret (Rejected (RString "Key points to a folder"))
        else if truthy (data_content data) then
          ret (Resolved (convertBase64ToString (str (data_content data))))
        else
          ret (Rejected (RString GITHUB_API_ERROR_MESSAGE))
    | Throw error =>
        if negb (isGithubApiError error) then
          ret (Rejected (RString INTERNAL_ERROR_MESSAGE))
        else if status_is error 404 then
          ret (Rejected (RString OBJECT_NOT_FOUND_MESSAGE))
        else if status_is error 401 then
          ret (Rejected (RString BAD_CREDENTIALS_MESSAGE))
        else
          ret (Rejected (RString GITHUB_API_ERROR_MESSAGE))
    end.

(** *** [listObjects] *)

Definition listObjects (key : string)
    : M (Outcome (list OctokitGetEndpointData)) :=
  resp <- listObjectsOctokit key ;;
  match resp with
  | Ok data =>
      match data with
      | DArray l => ret (Resolved l)
      | DObject _ => ret (Rejected (RString "Not a folder"))
      end
  | Throw error => ret (Rejected (RThrown error))
  end.

End Client.

Arguments M {remote} A.

(** ** Stand-ins for what lies outside [GHClient.ts]

    The theorems below hold for every remote service, every helper and
    every message text.  The definitions of this part give concrete ones
    to run the client on. *)

(** *** Remote services *)

(** A remote client that answers its [n]-th request with [script n],
    whatever the request is: the state is the number of requests seen. *)
Definition scripted (script : nat -> Response) : Octokit :=
  {| World := nat;
     octokit_request := fun _ n => (script n, S n) |}.

(** The script that follows a finite list of answers and then repeats
    [last] for ever. *)
Definition answers (l : list Response) (last : Response) : nat -> Response :=
  fun n => nth n l last.

(** Modelled from the spec: the remote contents API, which is an external
    service.  A repository maps paths to file contents; GET reads a file
    (with its digest and content) or lists a folder, PUT creates a file or
    updates one when given its current digest, DELETE removes a file when
    given its current digest.  Requests take effect in the order they are
    sent. *)
Definition Repository := list (string * string).

Fixpoint lookup (path : string) (files : Repository) : option string :=
  match files with
  | [] => None
  | (p, c) :: rest => if (p =? path)%string then Some c else lookup path rest
  end.

Fixpoint erase (path : string) (files : Repository) : Repository :=
  match files with
  | [] => []
  | (p, c) :: rest =>
      if (p =? path)%string then erase path rest else (p, c) :: erase path rest
  end.

(** The digest the service reports for a content: never empty. *)
Definition digest (c : string) : string := "sha:" ++ c.

(** The entries of the folder [path]: the files below it. *)
Definition children (path : string) (files : Repository)
    : list OctokitGetEndpointData :=
  map (fun pc => mkData (Some (digest (snd pc))) None)
      (filter (fun pc => prefix (path ++ "/") (fst pc)) files).

Definition not_found : Thrown := mkThrown (Some 404) "Not Found".
Definition conflict : Thrown := mkThrown (Some 409) "Conflict".
Definition unprocessable : Thrown := mkThrown (Some 422) "Unprocessable Entity".
Definition unauthorized : Thrown := mkThrown (Some 401) "Bad credentials".
Definition server_error : Thrown := mkThrown (Some 500) "Server Error".

Definition repository_request (r : Request) (files : Repository)
    : Response * Repository :=
  match r with
  | GET _ _ path =>
      match lookup path files with
      | Some c => (Ok (DObject (mkData (Some (digest c)) (Some c))), files)
      | None =>
          match children path files with
          | [] => (Throw not_found, files)
          | l => (Ok (DArray l), files)
          end
      end
  | PUT _ _ path _ c given =>
      match lookup path files, given with
      | None, None =>
          (Ok (DObject (mkData (Some (digest c)) None)), (path, c) :: files)
      | Some old, Some s =>
          if (s =? digest old)%string
          then (Ok (DObject (mkData (Some (digest c)) None)),
                (path, c) :: erase path files)
          else (Throw conflict, files)
      | _, _ => (Throw unprocessable, files)
      end
  | DELETE _ _ path _ given =>
      match lookup path files, given with
      | Some old, Some s =>
          if (s =? digest old)%string
          then (Ok (DObject (mkData None None)), erase path files)
          else (Throw conflict, files)
      | Some _, None => (Throw unprocessable, files)
      | None, _ => (Throw not_found, files)
      end
  end.

Definition repository : Octokit :=
  {| World := Repository;
     octokit_request := repository_request |}.

(** *** Base64 *)

(** The character of a 6-bit value in the base64 alphabet. *)
Definition sextet_char (n : N) : ascii :=
  if (n <? 26)%N then ascii_of_N (n + 65)
  else if (n <? 52)%N then ascii_of_N (n + 71)
  else if (n <? 62)%N then ascii_of_N (n - 4)
  else if (n =? 62)%N then "+"%char
  else "/"%char.

(** The 6-bit value of a character of the alphabet; 0 for any other. *)
Definition char_sextet (c : ascii) : N :=
  let n := N_of_ascii c in
  if ((65 <=? n) && (n <=? 90))%N then (n - 65)%N
  else if ((97 <=? n) && (n <=? 122))%N then (n - 71)%N
  else if ((48 <=? n) && (n <=? 57))%N then (n + 4)%N
  else if (n =? 43)%N then 62%N
  else if (n =? 47)%N then 63%N
  else 0%N.

Definition pad : ascii := "="%char.

(** Modelled from the spec: [convertStringToBase64] of
    [helpers/GHClientHelpers], the base64 transport encoding of a value;
    a string stands for its bytes. *)
Fixpoint base64_encode (s : string) : string :=
  match s with
  | EmptyString => EmptyString
  | String a EmptyString =>
      let x := N_of_ascii a in
      String (sextet_char (x / 4))
        (String (sextet_char (x mod 4 * 16))
          (String pad (String pad EmptyString)))
  | String a (String b EmptyString) =>
      let x := N_of_ascii a in
      let y := N_of_ascii b in
      String (sextet_char (x / 4))
        (String (sextet_char (x mod 4 * 16 + y / 16))
          (String (sextet_char (y mod 16 * 4))
            (String pad EmptyString)))
  | String a (String b (String c rest)) =>
      let x := N_of_ascii a in
      let y := N_of_ascii b in
      let z := N_of_ascii c in
      String (sextet_char (x / 4))
        (String (sextet_char (x mod 4 * 16 + y / 16))
          (String (sextet_char (y mod 16 * 4 + z / 64))
            (String (sextet_char (z mod 64)) (base64_encode rest))))
  end%N.

(** Modelled from the spec: [convertBase64ToString] of
    [helpers/GHClientHelpers], the decoding of the transport encoding.
    Reading stops at padding or when fewer than four characters are left. *)
Fixpoint base64_decode (s : string) : string :=
  match s with
  | String c1 (String c2 (String c3 (String c4 rest))) =>
      let n1 := char_sextet c1 in
      let n2 := char_sextet c2 in
      let n3 := char_sextet c3 in
      let n4 := char_sextet c4 in
      let b1 := ascii_of_N (n1 * 4 + n2 / 16) in
      let b2 := ascii_of_N (n2 mod 16 * 16 + n3 / 4) in
      let b3 := ascii_of_N (n3 mod 4 * 64 + n4) in
      if (c3 =? pad)%char then String b1 EmptyString
      else if (c4 =? pad)%char then String b1 (String b2 EmptyString)
      else String b1 (String b2 (String b3 (base64_decode rest)))
  | _ => EmptyString
  end%N.

(** *** Helpers and messages *)

(** Whether [needle] occurs in [s]. *)
Definition occurs (needle s : string) : bool :=
  match index 0 needle s with
  | Some _ => true
  | None => false
  end.

(** Whether some character of [s] satisfies [p]. *)
Definition has_char (p : ascii -> bool) (s : string) : bool :=
  existsb p (list_ascii_of_string s).

(** Modelled from the spec: [validStorageKey] of [helpers/GHClientHelpers]:
    a key is valid when it is not empty, has no disallowed character and no
    traversal sequence.  The spec does not list the disallowed characters:
    they are the argument [disallowed]. *)
Definition validStorageKey_spec (disallowed : ascii -> bool) (key : string)
    : bool :=
  negb (key =? "")%string
  && negb (has_char disallowed key)
  && negb (occurs ".." key).

(** Modelled from the spec: [isGithubApiError] of [helpers/GHClientHelpers]
    recognises an error by its shape, that of an API error bearing an HTTP
    status. *)
Definition isGithubApiError_spec (e : Thrown) : bool :=
  match status e with
  | Some _ => true
  | None => false
  end.

(** Control characters and the backslash, taken as disallowed where a
    concrete key predicate is needed. *)
Definition control_or_backslash (c : ascii) : bool :=
  ((N_of_ascii c <? 32) || (N_of_ascii c =? 92))%N.

Definition spec_helpers : Helpers :=
  {| validStorageKey := validStorageKey_spec control_or_backslash;
     isGithubApiError := isGithubApiError_spec;
     convertStringToBase64 := base64_encode;
     convertBase64ToString := base64_decode |}.

(** Message texts to run the client with; the theorems do not depend on
    them. *)
Definition sample_messages : ErrorMessages :=
  {| BAD_CREDENTIALS_MESSAGE := "Bad credentials";
     INTERNAL_ERROR_MESSAGE := "Internal error";
     GITHUB_API_ERROR_MESSAGE := "GitHub API error";
     OBJECT_NOT_FOUND_MESSAGE := "Object not found";
     INVALID_KEY_MESSAGE := "Invalid key" |}.

(** The client of the spec's scenario. *)
Definition acme : GHClient :=
  new_GHClient (Some (mkCommitter "system" "system@example.com"))
    (mkConfiguration "acme" "data" "token" None).

(** [putObject] and then [getObject] on the same key, each awaited. *)
Definition put_then_get {remote : Octokit} {helpers : Helpers}
    {messages : ErrorMessages} (this : GHClient) (fuel : nat)
    (key value : string) (w : World)
    : option (Outcome unit) * Outcome string * World :=
  let '(p, w1, _) := putObject this fuel key value w in
  let '(g, w2, _) := getObject this key w1 in
  (p, g, w2).

(** *** Vocabulary of the statements *)

(** The request [getObjectOctokit] sends for [key], as awaited. *)
Definition fetch (this : GHClient) (key : string) : Event :=
  mkEvent (GET (owner this) (repo this) key) true.

(** The request [deleteObjectOctokit] sends, as awaited. *)
Definition deletion (this : GHClient) (key : string) (sha : option string)
    : Event :=
  mkEvent (DELETE (owner this) (repo this) key (committer this) sha) true.

(** The request of [replaceObjectOctokit] and [uploadNewObjectOctokit]. *)
Definition upload {helpers : Helpers} (this : GHClient) (key value : string)
    (sha : option string) : Request :=
  PUT (owner this) (repo this) key (committer this)
      (convertStringToBase64 value) sha.

(** [e] is what the [catch] blocks take for an API error of status [n]. *)
Definition api_error {helpers : Helpers} (e : Thrown) (n : Z) : Prop :=
  isGithubApiError e = true /\ status e = Some n.

(** A request that writes to the repository. *)
Definition is_write (r : Request) : bool :=
  match r with
  | GET _ _ _ => false
  | PUT _ _ _ _ _ _ => true
  | DELETE _ _ _ _ _ => true
  end.

(** An API error on which neither branch of the [catch] of [putObject]
    acts: recognised, and of a status other than 404 and 401. *)
Definition transient {helpers : Helpers} (e : Thrown) : bool :=
  isGithubApiError e && negb (status_is e 404) && negb (status_is e 401).

(** Two [putObject] and then [getObject] on one key, each awaited. *)
Definition put_put_get {remote : Octokit} {helpers : Helpers}
    {messages : ErrorMessages} (this : GHClient) (fuel : nat)
    (key value1 value2 : string)
    : M (option (Outcome unit) * option (Outcome unit) * Outcome string) :=
  bind (putObject this fuel key value1) (fun p1 =>
  bind (putObject this fuel key value2) (fun p2 =>
  bind (getObject this key) (fun g =>
  ret (p1, p2, g)))).

(** [putObject], [removeObject] and then [getObject] on one key, each
    awaited. *)
Definition put_remove_get {remote : Octokit} {helpers : Helpers}
    {messages : ErrorMessages} (this : GHClient) (fuel : nat)
    (key value : string)
    : M (option (Outcome unit) * option (Outcome (option string))
         * Outcome string) :=
  bind (putObject this fuel key value) (fun p =>
  bind (removeObject this fuel key) (fun r =>
  bind (getObject this key) (fun g =>
  ret (p, r, g)))).

(** The answer of the remote service to a request, and the state after. *)
Definition answer {remote : Octokit} (r : Request) (w : World) : Response :=
  fst (octokit_request r w).
Definition after {remote : Octokit} (r : Request) (w : World) : World :=
  snd (octokit_request r w).

(** The shapes the request after the fetches of [putObject] can take:
    none, an awaited replacement carrying a digest, or a creation without
    digest that is not awaited. *)
Definition put_tail {helpers : Helpers} (this : GHClient)
    (key value : string) (tail : list Event) : Prop :=
  tail = []
  \/ (exists s, tail = [mkEvent (upload this key value (Some s)) true])
  \/ tail = [mkEvent (upload this key value None) false].

(** The reasons [putObject] can reject with once its key is accepted. *)
Definition put_reason {messages : ErrorMessages} (r : Reason) : Prop :=
  r = RString INTERNAL_ERROR_MESSAGE
  \/ r = RString BAD_CREDENTIALS_MESSAGE
  \/ r = RString "Cannot replace value of a folder".

(** A remote client that gives the same answer to every request. *)
Definition always (r : Response) : Octokit := scripted (fun _ => r).

(** A file entry with a digest, and a repository that holds one file. *)
Definition file_abc : Response :=
  Ok (DObject (mkData (Some "abc") (Some "b2xk"))).
Definition notes : Repository := [("notes/a.txt", "aGVsbG8=")].

(** Sanity checks of the stand-ins. *)
Example base64_hello : base64_encode "hello" = "aGVsbG8=".
Proof. reflexivity. Qed.

Example base64_hello_back : base64_decode "aGVsbG8=" = "hello".
Proof. reflexivity. Qed.

Example scenario_put_get :
  @put_then_get repository spec_helpers sample_messages acme 1
     "notes/a.txt" "hello" []
  = (Some (Resolved tt), Resolved "hello", [("notes/a.txt", "aGVsbG8=")]).
Proof. reflexivity. Qed.

(** ** Properties of the client *)

Unset Implicit Arguments.

Section Properties.

Context {remote : Octokit} {helpers : Helpers} {messages : ErrorMessages}.
Variable this : GHClient.

Lemma status_is_eq e n : status e = Some n -> status_is e n = true.
Proof. unfold status_is. intros ->. apply Z.eqb_refl. Qed.

Lemma status_is_neq e n m :
  status e = Some n -> n <> m -> status_is e m = false.
Proof. unfold status_is. intros -> Hne. now apply Z.eqb_neq. Qed.

(** One turn of the loop of [putObject], entered with [success] unset. *)
Lemma putObject_while_step fuel key value w :
  putObject_while this (S fuel) key value false MAX_API_ATTEMPTS w =
  bind (getObjectOctokit this key)
    (fun getResponse =>
       match getResponse with
       | Ok data =>
           if truthy (data_sha data) then
             bind (replaceObjectOctokit this key value (str (data_sha data)))
               (fun _ => putObject_while this fuel key value true
                           MAX_API_ATTEMPTS)
           else if isArray data then
             ret (Some (Rejected (RString "Cannot replace value of a folder")))
           else putObject_while this fuel key value true MAX_API_ATTEMPTS
       | Throw error =>
           if negb (isGithubApiError error) then
             ret (Some (Rejected (RString INTERNAL_ERROR_MESSAGE)))
           else if status_is error 404 then
             bind (detach (uploadNewObjectOctokit this key value))
               (fun _ => putObject_while this fuel key value true
                           MAX_API_ATTEMPTS)
           else if status_is error 401 then
             ret (Some (Rejected (RString BAD_CREDENTIALS_MESSAGE)))
           else putObject_while this fuel key value false MAX_API_ATTEMPTS
       end) w.
Proof. reflexivity. Qed.

(** Once [success] is set the loop is over and [putObject] resolves. *)
Lemma putObject_while_done fuel key value n w :
  putObject_while this fuel key value true n w = (Some (Resolved tt), w, []).
Proof. destruct fuel; reflexivity. Qed.

(** Once [success] is set the loop of [removeObject] is over, and the
    statement after it rejects. *)
Lemma removeObject_while_done fuel key n w :
  removeObject_while this fuel key true n w =
  (Some (Rejected (RString GITHUB_API_ERROR_MESSAGE)), w, []).
Proof. destruct fuel; reflexivity. Qed.

(** Enter an operation whose key check is settled by [H] and lay its
    requests bare. *)
Ltac enter H :=
  unfold putObject, removeObject, getObject, listObjects;
  rewrite ?H; simpl;
  unfold listObjectsOctokit, getObjectOctokit, deleteObjectOctokit,
    replaceObjectOctokit, uploadNewObjectOctokit, detach, bind, send, ret;
  simpl.

(** C4: a key that fails [validStorageKey] makes [putObject], [getObject]
    and [removeObject] reject with [INVALID_KEY_MESSAGE]; no request is
    sent and the remote service is left as it was. *)
Theorem invalid_key_rejected_before_any_request fuel key value w :
  validStorageKey key = false ->
  putObject this fuel key value w
    = (Some (Rejected (RString INVALID_KEY_MESSAGE)), w, [])
  /\ getObject this key w = (Rejected (RString INVALID_KEY_MESSAGE), w, [])
  /\ removeObject this fuel key w
    = (Some (Rejected (RString INVALID_KEY_MESSAGE)), w, []).
Proof.
  intros Hkey. unfold putObject, getObject, removeObject.
  rewrite Hkey. simpl. repeat split.
Qed.

(** C1, as the code has it: when the fetch of a valid key throws an API
    error of status 404, [removeObject] sets [success], leaves the loop and
    runs into the rejection that follows it: the promise is rejected with
    [GITHUB_API_ERROR_MESSAGE] after the one request. *)
Theorem removeObject_not_found_rejects fuel key w e w' :
  validStorageKey key = true ->
  octokit_request (request (fetch this key)) w = (Throw e, w') ->
  api_error e 404 ->
  removeObject this (S fuel) key w
    = (Some (Rejected (RString GITHUB_API_ERROR_MESSAGE)), w', [fetch this key]).
Proof.
  intros Hkey Hget [Hapi Hst]. simpl in Hget.
  enter Hkey. rewrite Hget. simpl.
  rewrite Hapi, (status_is_eq _ _ Hst). simpl.
  rewrite removeObject_while_done. reflexivity.
Qed.

(** [removeObject] always settles within one turn of its loop, after at
    most two requests. *)
Lemma removeObject_settles fuel key w :
  exists o, result (removeObject this (S fuel) key w) = Some o
            /\ (length (trace (removeObject this (S fuel) key w)) <= 2)%nat.
Proof.
  unfold removeObject. destruct (validStorageKey key); simpl.
  2: { eexists; split; [reflexivity | simpl; lia]. }
  unfold bind, getObjectOctokit, deleteObjectOctokit, send, ret, result, trace.
  destruct (octokit_request _ w) as [[d | e] w1].
  - destruct (octokit_request _ w1) as [[d' | e] w2].
    + eexists; split; [reflexivity | simpl; lia].
    + destruct (isGithubApiError e); simpl.
      2: { eexists; split; [reflexivity | simpl; lia]. }
      destruct (status_is e 404).
      * rewrite removeObject_while_done. eexists; split; [reflexivity | simpl; lia].
      * destruct (status_is e 401); eexists; split; try reflexivity; simpl; lia.
  - destruct (isGithubApiError e); simpl.
    2: { eexists; split; [reflexivity | simpl; lia]. }
    destruct (status_is e 404).
    * rewrite removeObject_while_done. eexists; split; [reflexivity | simpl; lia].
    * destruct (status_is e 401); eexists; split; try reflexivity; simpl; lia.
Qed.

(** A 401 of the fetch: when the fetch throws an API error of status 401,
    [putObject], [getObject] and [removeObject] on a valid key reject with
    [BAD_CREDENTIALS_MESSAGE] after that one request, and [listObjects], on
    any key, rejects after that one request with the thrown error itself. *)
Theorem unauthorized_fetch_rejects_at_once fuel key value w e w' :
  octokit_request (request (fetch this key)) w = (Throw e, w') ->
  api_error e 401 ->
  (validStorageKey key = true ->
     putObject this (S fuel) key value w
       = (Some (Rejected (RString BAD_CREDENTIALS_MESSAGE)), w', [fetch this key])
     /\ getObject this key w
       = (Rejected (RString BAD_CREDENTIALS_MESSAGE), w', [fetch this key])
     /\ removeObject this (S fuel) key w
       = (Some (Rejected (RString BAD_CREDENTIALS_MESSAGE)), w', [fetch this key]))
  /\ listObjects this key w = (Rejected (RThrown e), w', [fetch this key]).
Proof.
  intros Hget [Hapi Hst]. simpl in Hget.
  assert (H404 : status_is e 404 = false)
    by (apply (status_is_neq _ _ _ Hst); discriminate).
  assert (H401 : status_is e 401 = true) by now apply status_is_eq.
  split.
  - intros Hkey. repeat split; enter Hkey; rewrite Hget; simpl;
      rewrite Hapi, H404, H401; reflexivity.
  - enter Hget. rewrite Hget. reflexivity.
Qed.

(** C6: when the fetch of a valid key succeeds with an array, [putObject]
    rejects with the folder message; the fetch is the only request sent, so
    nothing is written. *)
Theorem putObject_folder_conflict fuel key value w l w' :
  validStorageKey key = true ->
  octokit_request (request (fetch this key)) w = (Ok (DArray l), w') ->
  result (putObject this (S fuel) key value w)
    = Some (Rejected (RString "Cannot replace value of a folder"))
  /\ trace (putObject this (S fuel) key value w) = [fetch this key]
  /\ existsb (fun ev => is_write (request ev))
       (trace (putObject this (S fuel) key value w)) = false.
Proof.
  intros Hkey Hget. simpl in Hget.
  assert (Hrun : putObject this (S fuel) key value w
                 = (Some (Rejected (RString "Cannot replace value of a folder")),
                    w', [fetch this key])).
  { enter Hkey. rewrite Hget. reflexivity. }
  rewrite Hrun. repeat split.
Qed.

(** C7: when the fetch of a valid key succeeds with a file entry,
    [removeObject] sends exactly one more request, the DELETE carrying the
    digest just fetched; when that DELETE succeeds the promise resolves
    with the [content] field as fetched, to which no decoding is applied. *)
Theorem removeObject_existing_file fuel key w o w1 deleted w2 :
  validStorageKey key = true ->
  octokit_request (request (fetch this key)) w = (Ok (DObject o), w1) ->
  octokit_request (request (deletion this key (sha o))) w1 = (deleted, w2) ->
  trace (removeObject this (S fuel) key w)
    = [fetch this key; deletion this key (sha o)]
  /\ world (removeObject this (S fuel) key w) = w2
  /\ (forall d, deleted = Ok d ->
        result (removeObject this (S fuel) key w) = Some (Resolved (content o))).
Proof.
  intros Hkey Hget Hdel. simpl in Hget, Hdel.
  enter Hkey. rewrite Hget. simpl. rewrite Hdel.
  destruct deleted as [d | e]; simpl.
  - repeat split.
  - destruct (isGithubApiError e); simpl; [|repeat split; discriminate].
    destruct (status_is e 404).
    + rewrite removeObject_while_done. repeat split; discriminate.
    + destruct (status_is e 401); repeat split; discriminate.
Qed.

(** C8: [putObject] resolves although its write failed.  With a fetched
    digest the awaited replacement may throw anything; after a 404 the
    creation is sent without being awaited and may throw anything.  Either
    way the promise resolves and the failed PUT is the last request. *)
Theorem putObject_resolves_though_write_failed fuel key value w w1 w2 e :
  validStorageKey key = true ->
  (forall o,
     octokit_request (request (fetch this key)) w = (Ok (DObject o), w1) ->
     truthy (sha o) = true ->
     octokit_request (upload this key value (Some (str (sha o)))) w1
       = (Throw e, w2) ->
     putObject this (S fuel) key value w
       = (Some (Resolved tt), w2,
          [fetch this key;
           mkEvent (upload this key value (Some (str (sha o)))) true]))
  /\ (forall e404,
        octokit_request (request (fetch this key)) w = (Throw e404, w1) ->
        api_error e404 404 ->
        octokit_request (upload this key value None) w1 = (Throw e, w2) ->
        putObject this (S fuel) key value w
          = (Some (Resolved tt), w2,
             [fetch this key; mkEvent (upload this key value None) false])).
Proof.
  intros Hkey. split.
  - intros o Hget Hsha Hput. simpl in Hget. unfold upload in *.
    enter Hkey. rewrite Hget. simpl. rewrite Hsha. simpl.
    unfold generateUploadParams. rewrite Hput. simpl.
    rewrite putObject_while_done. reflexivity.
  - intros e404 Hget [Hapi Hst] Hput. simpl in Hget. unfold upload in *.
    enter Hkey. rewrite Hget. simpl.
    rewrite Hapi, (status_is_eq _ _ Hst). simpl.
    unfold generateUploadParams. rewrite Hput. simpl.
    rewrite putObject_while_done. reflexivity.
Qed.

(** The two upload methods never pass an error on: a throwing request
    makes them return [false]. *)
Lemma uploads_swallow_errors key value s w e w' :
  (octokit_request (upload this key value (Some s)) w = (Throw e, w') ->
   result (replaceObjectOctokit this key value s w) = false)
  /\ (octokit_request (upload this key value None) w = (Throw e, w') ->
      result (uploadNewObjectOctokit this key value w) = false).
Proof.
  unfold upload, replaceObjectOctokit, uploadNewObjectOctokit,
    generateUploadParams, bind, send, ret, result.
  split; intros ->; reflexivity.
Qed.

(** C9: [listObjects] checks no key and classifies no error.  On every
    key, valid or not, it sends the fetch and nothing else; an error the
    fetch throws is the rejection, as it is, so it is none of the message
    strings. *)
Theorem listObjects_unvalidated_unclassified key w :
  trace (listObjects this key w) = [fetch this key]
  /\ (forall e w',
        octokit_request (request (fetch this key)) w = (Throw e, w') ->
        listObjects this key w = (Rejected (RThrown e), w', [fetch this key])
        /\ forall s, result (listObjects this key w) <> Rejected (RString s)).
Proof.
  split.
  - unfold listObjects, listObjectsOctokit, getObjectOctokit, bind, send, ret,
      trace.
    destruct (octokit_request _ w) as [[[o | l] | e] w1]; reflexivity.
  - intros e w' Hget. simpl in Hget.
    assert (Hrun : listObjects this key w
                   = (Rejected (RThrown e), w', [fetch this key])).
    { enter Hget. rewrite Hget. reflexivity. }
    rewrite Hrun. split; [reflexivity | discriminate].
Qed.

(** C10: when the fetch of a valid key succeeds with a file entry whose
    [content] is the empty string, [getObject] rejects with
    [GITHUB_API_ERROR_MESSAGE]. *)
Theorem getObject_empty_content_rejected key w s w' :
  validStorageKey key = true ->
  octokit_request (request (fetch this key)) w
    = (Ok (DObject (mkData s (Some ""))), w') ->
  getObject this key w
    = (Rejected (RString GITHUB_API_ERROR_MESSAGE), w', [fetch this key]).
Proof.
  intros Hkey Hget. simpl in Hget.
  enter Hkey. rewrite Hget. reflexivity.
Qed.

(** C2, as the code has it: [remainingAttempts] is never decreased, so an
    error that is neither 404 nor 401 sends [putObject] round the loop
    again with nothing changed.  Against a service whose fetch always
    throws such an error, [putObject] has not settled after any number of
    turns, and has sent one fetch per turn: more than [MAX_API_ATTEMPTS]
    once the turns exceed it. *)
Theorem putObject_retries_without_bound key value :
  validStorageKey key = true ->
  (forall w, exists e w',
      octokit_request (request (fetch this key)) w = (Throw e, w')
      /\ isGithubApiError e = true
      /\ status_is e 404 = false /\ status_is e 401 = false) ->
  forall fuel w,
    result (putObject this fuel key value w) = None
    /\ trace (putObject this fuel key value w) = repeat (fetch this key) fuel.
Proof.
  intros Hkey Hremote fuel. unfold putObject. rewrite Hkey. simpl.
  induction fuel as [| fuel IH]; intros w.
  - split; reflexivity.
  - destruct (Hremote w) as (e & w' & Hget & Hapi & H404 & H401).
    simpl in Hget. specialize (IH w').
    rewrite putObject_while_step.
    unfold bind, getObjectOctokit, send. rewrite Hget. simpl.
    rewrite Hapi, H404, H401. simpl.
    destruct (putObject_while this fuel key value false MAX_API_ATTEMPTS w')
      as [[r w2] t].
    unfold result, trace in *. simpl in *.
    destruct IH as [-> ->]. split; reflexivity.
Qed.

End Properties.

(** ** Properties of the stand-ins *)

(** Case analysis on a number below 64. *)
Ltac below_64 n H :=
  destruct n as [| p];
  [| do 6 (try destruct p as [p | p |]) ];
  try (exfalso; lia); clear H.

Lemma char_sextet_sextet_char n :
  (n < 64)%N -> char_sextet (sextet_char n) = n.
Proof. intros H. below_64 n H; reflexivity. Qed.

Lemma sextet_char_not_pad n :
  (n < 64)%N -> (sextet_char n =? pad)%char = false.
Proof. intros H. below_64 n H; reflexivity. Qed.

Lemma N_of_ascii_below a : (N_of_ascii a < 256)%N.
Proof. apply N_ascii_bounded. Qed.

(** Solve a goal on quotients and remainders of numbers in [N]. *)
Ltac euclid := zify; Z.to_euclidean_division_equations; lia.

(** Decoding the four characters of three bytes gives the bytes back. *)
Lemma base64_decode_group a b c rest :
  base64_decode (base64_encode (String a (String b (String c rest))))
  = String a (String b (String c (base64_decode (base64_encode rest)))).
Proof.
  pose proof (N_of_ascii_below a) as Ha.
  pose proof (N_of_ascii_below b) as Hb.
  pose proof (N_of_ascii_below c) as Hc.
  cbn [base64_encode base64_decode].
  set (x := N_of_ascii a) in *.
  set (y := N_of_ascii b) in *.
  set (z := N_of_ascii c) in *.
  rewrite !char_sextet_sextet_char by euclid.
  rewrite !sextet_char_not_pad by euclid.
  replace (x / 4 * 4 + (x mod 4 * 16 + y / 16) / 16)%N with x by euclid.
  replace ((x mod 4 * 16 + y / 16) mod 16 * 16 + (y mod 16 * 4 + z / 64) / 4)%N
    with y by euclid.
  replace ((y mod 16 * 4 + z / 64) mod 4 * 64 + z mod 64)%N with z by euclid.
  subst x y z. rewrite !ascii_N_embedding. reflexivity.
Qed.

Lemma base64_decode_one a :
  base64_decode (base64_encode (String a EmptyString)) = String a EmptyString.
Proof.
  pose proof (N_of_ascii_below a) as Ha.
  cbn [base64_encode base64_decode].
  set (x := N_of_ascii a) in *.
  rewrite !char_sextet_sextet_char by euclid.
  change (pad =? pad)%char with true. cbv iota.
  replace (x / 4 * 4 + x mod 4 * 16 / 16)%N with x by euclid.
  subst x. rewrite ascii_N_embedding. reflexivity.
Qed.

Lemma base64_decode_two a b :
  base64_decode (base64_encode (String a (String b EmptyString)))
  = String a (String b EmptyString).
Proof.
  pose proof (N_of_ascii_below a) as Ha.
  pose proof (N_of_ascii_below b) as Hb.
  cbn [base64_encode base64_decode].
  set (x := N_of_ascii a) in *.
  set (y := N_of_ascii b) in *.
  rewrite !char_sextet_sextet_char by euclid.
  rewrite sextet_char_not_pad by euclid.
  change (pad =? pad)%char with true. cbv iota.
  replace (x / 4 * 4 + (x mod 4 * 16 + y / 16) / 16)%N with x by euclid.
  replace ((x mod 4 * 16 + y / 16) mod 16 * 16 + y mod 16 * 4 / 4)%N
    with y by euclid.
  subst x y. rewrite !ascii_N_embedding. reflexivity.
Qed.

(** Decoding inverts encoding, on every string. *)
Lemma base64_decode_encode s : base64_decode (base64_encode s) = s.
Proof.
  enough (H : base64_decode (base64_encode s) = s
              /\ (forall a, base64_decode (base64_encode (String a s))
                            = String a s)
              /\ (forall a b,
                    base64_decode (base64_encode (String a (String b s)))
                    = String a (String b s))) by apply H.
  induction s as [| c s (IH0 & IH1 & IH2)].
  - repeat split; intros.
    + apply base64_decode_one.
    + apply base64_decode_two.
  - repeat split; intros.
    + apply IH1.
    + apply IH2.
    + rewrite base64_decode_group. now rewrite IH0.
Qed.

(** Only the empty string has an empty encoding. *)
Lemma base64_encode_empty s : base64_encode s = "" <-> s = "".
Proof.
  split; [| intros ->; reflexivity].
  destruct s as [| a [| b [| c rest]]]; [reflexivity | discriminate ..].
Qed.

(** In the model repository a fetch reads back the file just written. *)
Lemma lookup_written key c files : lookup key ((key, c) :: files) = Some c.
Proof. simpl. now rewrite String.eqb_refl. Qed.

(** What [putObject] does in the model repository to a key that names
    neither a file nor a folder: the 404 of the fetch leads to a creation,
    sent and not awaited. *)
Lemma putObject_creates {helpers : Helpers} {messages : ErrorMessages}
    this fuel key value files :
  validStorageKey key = true ->
  isGithubApiError not_found = true ->
  lookup key files = None ->
  children key files = [] ->
  putObject (remote := repository) this (S fuel) key value files
  = (Some (Resolved tt), (key, convertStringToBase64 value) :: files,
     [fetch this key; mkEvent (upload this key value None) false]).
Proof.
  intros Hkey Hapi Hfile Hfolder.
  unfold putObject. rewrite Hkey. cbn [negb].
  rewrite putObject_while_step.
  unfold bind, getObjectOctokit, send. simpl octokit_request.
  rewrite Hfile, Hfolder. rewrite Hapi. simpl.
  unfold detach, uploadNewObjectOctokit, generateUploadParams, bind, send, ret.
  simpl octokit_request. rewrite Hfile. simpl.
  rewrite putObject_while_done. reflexivity.
Qed.

(** What [getObject] does in the model repository to a file. *)
Lemma getObject_reads {helpers : Helpers} {messages : ErrorMessages}
    this key c files :
  validStorageKey key = true ->
  lookup key files = Some c ->
  getObject (remote := repository) this key files
  = (if negb (c =? "")%string
     then Resolved (convertBase64ToString c)
     else Rejected (RString GITHUB_API_ERROR_MESSAGE),
     files, [fetch this key]).
Proof.
  intros Hkey Hfile.
  unfold getObject. rewrite Hkey. cbn [negb].
  unfold bind, getObjectOctokit, send. simpl octokit_request.
  rewrite Hfile. simpl. destruct (c =? "")%string; reflexivity.
Qed.

(** What [removeObject] does in the model repository to a file: the
    content comes back as stored, encoded, and the file is gone. *)
Lemma removeObject_erases {helpers : Helpers} {messages : ErrorMessages}
    this fuel key c files :
  validStorageKey key = true ->
  lookup key files = Some c ->
  removeObject (remote := repository) this (S fuel) key files
  = (Some (Resolved (Some c)), erase key files,
     [fetch this key; deletion this key (Some (digest c))]).
Proof.
  intros Hkey Hfile.
  unfold removeObject. rewrite Hkey. cbn [negb]. simpl.
  unfold bind, getObjectOctokit, deleteObjectOctokit, send, ret.
  simpl octokit_request. rewrite Hfile. simpl.
  rewrite Hfile, String.eqb_refl. reflexivity.
Qed.

(** C5, as the code has it: in the model repository, with an encoding
    that maps the empty string to the empty string as base64 does,
    [putObject] of the empty string to a fresh valid key resolves and
    stores the file, and the [getObject] that follows rejects with
    [GITHUB_API_ERROR_MESSAGE] where the value written was to come back. *)
Theorem put_then_get_empty_value {helpers : Helpers}
    {messages : ErrorMessages} this fuel key files :
  validStorageKey key = true ->
  isGithubApiError not_found = true ->
  convertStringToBase64 "" = "" ->
  lookup key files = None ->
  children key files = [] ->
  put_then_get (remote := repository) this (S fuel) key "" files
  = (Some (Resolved tt), Rejected (RString GITHUB_API_ERROR_MESSAGE),
     (key, "") :: files).
Proof.
  intros Hkey Hapi Henc Hfile Hfolder. unfold put_then_get.
  rewrite putObject_creates by assumption.
  rewrite (getObject_reads _ _ (convertStringToBase64 ""))
    by (assumption || apply lookup_written).
  rewrite Henc. reflexivity.
Qed.

(** Every other value does come back: in the model repository, with an
    encoding that decoding inverts and that is empty on the empty string
    only, [putObject] of a non-empty value to a fresh valid key followed by
    [getObject] gives the value. *)
Lemma put_then_get_nonempty_value {helpers : Helpers}
    {messages : ErrorMessages} this fuel key value files :
  validStorageKey key = true ->
  isGithubApiError not_found = true ->
  (forall s, convertBase64ToString (convertStringToBase64 s) = s) ->
  (forall s, convertStringToBase64 s = "" -> s = "") ->
  lookup key files = None ->
  children key files = [] ->
  value <> "" ->
  put_then_get (remote := repository) this (S fuel) key value files
  = (Some (Resolved tt), Resolved value,
     (key, convertStringToBase64 value) :: files).
Proof.
  intros Hkey Hapi Hinv Hempty Hfile Hfolder Hvalue. unfold put_then_get.
  rewrite putObject_creates by assumption.
  rewrite (getObject_reads _ _ (convertStringToBase64 value))
    by (assumption || apply lookup_written).
  destruct (String.eqb_spec (convertStringToBase64 value) "") as [He | _].
  - now apply Hempty in He.
  - simpl. now rewrite Hinv.
Qed.

(** The same with the base64 of this file as the encoding. *)
Lemma put_then_get_base64 {messages : ErrorMessages} this fuel key value files :
  validStorageKey (Helpers := spec_helpers) key = true ->
  lookup key files = None ->
  children key files = [] ->
  value <> "" ->
  put_then_get (remote := repository) (helpers := spec_helpers)
    this (S fuel) key value files
  = (Some (Resolved tt), Resolved value, (key, base64_encode value) :: files).
Proof.
  intros Hkey Hfile Hfolder Hvalue.
  apply (put_then_get_nonempty_value (helpers := spec_helpers)); auto.
  - exact base64_decode_encode.
  - intros s. apply base64_encode_empty.
Qed.


(** ** The theorems at concrete inputs *)

(** Nothing is stored under [notes/a.txt]: [removeObject] rejects. *)
Lemma removeObject_not_found_rejects_witness :
  removeObject (remote := repository) (helpers := spec_helpers)
    (messages := sample_messages) acme 1 "notes/a.txt" []
  = (Some (Rejected (RString "GitHub API error")), [],
     [fetch acme "notes/a.txt"]).
Proof.
  apply (removeObject_not_found_rejects (remote := repository)
           (helpers := spec_helpers) (messages := sample_messages)
           acme 0%nat "notes/a.txt" [] not_found []).
  - reflexivity.
  - reflexivity.
  - split; reflexivity.
Defined.

(** A service that answers every request with a 500: after eleven turns
    [putObject] has sent eleven fetches and has not settled. *)
Lemma putObject_retries_without_bound_witness :
  result (putObject (remote := scripted (fun _ => Throw server_error))
            (helpers := spec_helpers) (messages := sample_messages)
            acme 11 "notes/a.txt" "hello" 0%nat) = None
  /\ trace (putObject (remote := scripted (fun _ => Throw server_error))
              (helpers := spec_helpers) (messages := sample_messages)
              acme 11 "notes/a.txt" "hello" 0%nat)
     = repeat (fetch acme "notes/a.txt") 11.
Proof.
  apply (putObject_retries_without_bound
           (remote := scripted (fun _ => Throw server_error))
           (helpers := spec_helpers) (messages := sample_messages)
           acme "notes/a.txt" "hello").
  - reflexivity.
  - intros w. exists server_error, (S w). repeat split.
Defined.

(** A service that answers every request with a 401. *)
Lemma unauthorized_fetch_rejects_at_once_witness :
  putObject (remote := scripted (fun _ => Throw unauthorized))
    (helpers := spec_helpers) (messages := sample_messages)
    acme 1 "notes/a.txt" "hello" 0%nat
  = (Some (Rejected (RString "Bad credentials")), 1%nat,
     [fetch acme "notes/a.txt"])
  /\ listObjects (remote := scripted (fun _ => Throw unauthorized))
       acme "notes" 0%nat
     = (Rejected (RThrown unauthorized), 1%nat, [fetch acme "notes"]).
Proof.
  split.
  - apply (unauthorized_fetch_rejects_at_once
             (remote := scripted (fun _ => Throw unauthorized))
             (helpers := spec_helpers) (messages := sample_messages)
             acme 0%nat "notes/a.txt" "hello" 0%nat unauthorized 1%nat).
    + reflexivity.
    + split; reflexivity.
    + reflexivity.
  - apply (unauthorized_fetch_rejects_at_once
             (remote := scripted (fun _ => Throw unauthorized))
             (helpers := spec_helpers) (messages := sample_messages)
             acme 0%nat "notes" "hello" 0%nat unauthorized 1%nat).
    + reflexivity.
    + split; reflexivity.
Defined.

(** [listObjects] against a service that answers 401: the fetch throws an API error
    of status 401 and the promise is not rejected with
    [BAD_CREDENTIALS_MESSAGE]. *)
Lemma listObjects_unauthorized_not_bad_credentials :
  octokit_request (Octokit := scripted (fun _ => Throw unauthorized))
    (request (fetch acme "notes")) 0%nat = (Throw unauthorized, 1%nat)
  /\ api_error (helpers := spec_helpers) unauthorized 401
  /\ result (listObjects (remote := scripted (fun _ => Throw unauthorized))
               acme "notes" 0%nat)
     <> Rejected (RString (BAD_CREDENTIALS_MESSAGE (ErrorMessages := sample_messages))).
Proof.
  split; [reflexivity |]. split; [split; reflexivity |].
  simpl. discriminate.
Qed.

(** The empty key is not valid. *)
Lemma invalid_key_rejected_before_any_request_witness :
  putObject (remote := repository) (helpers := spec_helpers)
    (messages := sample_messages) acme 1 "" "hello" []
    = (Some (Rejected (RString "Invalid key")), [], [])
  /\ getObject (remote := repository) (helpers := spec_helpers)
       (messages := sample_messages) acme "" []
     = (Rejected (RString "Invalid key"), [], [])
  /\ removeObject (remote := repository) (helpers := spec_helpers)
       (messages := sample_messages) acme 1 "" []
     = (Some (Rejected (RString "Invalid key")), [], []).
Proof.
  apply (invalid_key_rejected_before_any_request (remote := repository)
           (helpers := spec_helpers) (messages := sample_messages)
           acme 1%nat "" "hello" []).
  reflexivity.
Defined.

(** The empty value written to an empty repository does not come back. *)
Lemma put_then_get_empty_value_witness :
  put_then_get (remote := repository) (helpers := spec_helpers)
    (messages := sample_messages) acme 1 "notes/a.txt" "" []
  = (Some (Resolved tt), Rejected (RString "GitHub API error"),
     [("notes/a.txt", "")]).
Proof.
  apply (put_then_get_empty_value (helpers := spec_helpers)
           (messages := sample_messages) acme 0%nat "notes/a.txt" []);
    reflexivity.
Defined.

(** [notes] is a folder of the repository that holds [notes/a.txt]. *)
Lemma putObject_folder_conflict_witness :
  result (putObject (remote := repository) (helpers := spec_helpers)
            (messages := sample_messages) acme 1 "notes" "hello"
            [("notes/a.txt", "aGVsbG8=")])
    = Some (Rejected (RString "Cannot replace value of a folder"))
  /\ trace (putObject (remote := repository) (helpers := spec_helpers)
              (messages := sample_messages) acme 1 "notes" "hello"
              [("notes/a.txt", "aGVsbG8=")])
     = [fetch acme "notes"]
  /\ existsb (fun ev => is_write (request ev))
       (trace (putObject (remote := repository) (helpers := spec_helpers)
                 (messages := sample_messages) acme 1 "notes" "hello"
                 [("notes/a.txt", "aGVsbG8=")])) = false.
Proof.
  apply (putObject_folder_conflict (remote := repository)
           (helpers := spec_helpers) (messages := sample_messages)
           acme 0%nat "notes" "hello"
           [("notes/a.txt", "aGVsbG8=")]
           [mkData (Some "sha:aGVsbG8=") None]
           [("notes/a.txt", "aGVsbG8=")]).
  - reflexivity.
  - reflexivity.
Defined.

(** Removing [notes/a.txt], which holds the base64 of [hello]. *)
Lemma removeObject_existing_file_witness :
  trace (removeObject (remote := repository) (helpers := spec_helpers)
           (messages := sample_messages) acme 1 "notes/a.txt"
           [("notes/a.txt", "aGVsbG8=")])
    = [fetch acme "notes/a.txt";
       deletion acme "notes/a.txt" (Some "sha:aGVsbG8=")]
  /\ world (removeObject (remote := repository) (helpers := spec_helpers)
              (messages := sample_messages) acme 1 "notes/a.txt"
              [("notes/a.txt", "aGVsbG8=")]) = []
  /\ result (removeObject (remote := repository) (helpers := spec_helpers)
               (messages := sample_messages) acme 1 "notes/a.txt"
               [("notes/a.txt", "aGVsbG8=")])
     = Some (Resolved (Some "aGVsbG8=")).
Proof.
  destruct (removeObject_existing_file (remote := repository)
              (helpers := spec_helpers) (messages := sample_messages)
              acme 0%nat "notes/a.txt"
              [("notes/a.txt", "aGVsbG8=")]
              (mkData (Some "sha:aGVsbG8=") (Some "aGVsbG8="))
              [("notes/a.txt", "aGVsbG8=")]
              (Ok (DObject (mkData None None)))
              []
              eq_refl eq_refl eq_refl) as (Htrace & Hworld & Hresult).
  split; [exact Htrace |]. split; [exact Hworld |].
  exact (Hresult _ eq_refl).
Defined.

(** A service that reports a file and then fails the replacement, and one
    that reports no file and then fails the creation. *)
Lemma putObject_resolves_though_write_failed_witness :
  putObject
    (remote := scripted
       (answers [Ok (DObject (mkData (Some "abc") (Some "b2xk")))]
          (Throw server_error)))
    (helpers := spec_helpers) (messages := sample_messages)
    acme 1 "notes/a.txt" "hello" 0%nat
  = (Some (Resolved tt), 2%nat,
     [fetch acme "notes/a.txt";
      mkEvent (upload (helpers := spec_helpers) acme "notes/a.txt" "hello"
                 (Some "abc")) true])
  /\ putObject
       (remote := scripted (answers [Throw not_found] (Throw server_error)))
       (helpers := spec_helpers) (messages := sample_messages)
       acme 1 "notes/a.txt" "hello" 0%nat
     = (Some (Resolved tt), 2%nat,
        [fetch acme "notes/a.txt";
         mkEvent (upload (helpers := spec_helpers) acme "notes/a.txt" "hello"
                    None) false]).
Proof.
  split.
  - apply (proj1 (putObject_resolves_though_write_failed
             (remote := scripted
                (answers [Ok (DObject (mkData (Some "abc") (Some "b2xk")))]
                   (Throw server_error)))
             (helpers := spec_helpers) (messages := sample_messages)
             acme 0%nat "notes/a.txt" "hello" 0%nat 1%nat 2%nat server_error
             eq_refl)
           (mkData (Some "abc") (Some "b2xk")));
      reflexivity.
  - apply (proj2 (putObject_resolves_though_write_failed
             (remote := scripted
                (answers [Throw not_found] (Throw server_error)))
             (helpers := spec_helpers) (messages := sample_messages)
             acme 0%nat "notes/a.txt" "hello" 0%nat 1%nat 2%nat server_error
             eq_refl)
           not_found).
    + reflexivity.
    + split; reflexivity.
    + reflexivity.
Defined.

(** [listObjects] on the empty key, which is not valid, against a service
    that answers with a 500. *)
Lemma listObjects_unvalidated_unclassified_witness :
  validStorageKey (Helpers := spec_helpers) "" = false
  /\ listObjects (remote := scripted (fun _ => Throw server_error))
       acme "" 0%nat
     = (Rejected (RThrown server_error), 1%nat, [fetch acme ""]).
Proof.
  split; [reflexivity |].
  apply (proj2 (listObjects_unvalidated_unclassified
                  (remote := scripted (fun _ => Throw server_error))
                  acme "" 0%nat) server_error 1%nat).
  reflexivity.
Defined.

(** Reading a file whose content is the empty string. *)
Lemma getObject_empty_content_rejected_witness :
  getObject (remote := repository) (helpers := spec_helpers)
    (messages := sample_messages) acme "notes/empty.txt"
    [("notes/empty.txt", "")]
  = (Rejected (RString "GitHub API error"), [("notes/empty.txt", "")],
     [fetch acme "notes/empty.txt"]).
Proof.
  apply (getObject_empty_content_rejected (remote := repository)
           (helpers := spec_helpers) (messages := sample_messages)
           acme "notes/empty.txt" [("notes/empty.txt", "")]
           (Some "sha:") [("notes/empty.txt", "")]);
    reflexivity.
Defined.

(** ** Further properties of the client *)

Section Operations.

Context {remote : Octokit} {helpers : Helpers} {messages : ErrorMessages}.
Variable this : GHClient.

(** Lay the requests of an operation bare, without entering its loop. *)
Ltac expose :=
  unfold listObjectsOctokit, getObjectOctokit, deleteObjectOctokit,
    replaceObjectOctokit, uploadNewObjectOctokit, generateUploadParams,
    detach, bind, send, ret.

(** Name the answer to the request at hand. *)
Ltac next_answer resp w' H :=
  match goal with
  | |- context [octokit_request ?r ?w] =>
      destruct (octokit_request r w) as [resp w'] eqn:H
  end.

(** *** [getObject] *)

(** [getObject] sends one GET for a valid key and nothing for any other:
    it never retries and never writes. *)
Theorem getObject_single_fetch key w :
  trace (getObject this key w)
  = if validStorageKey key then [fetch this key] else [].
Proof.
  unfold getObject. destruct (validStorageKey key); [| reflexivity].
  cbn [negb]. expose. next_answer resp w' Hget.
  destruct resp as [d | e].
  - destruct (isArray d); [reflexivity |].
    destruct (truthy (data_content d)); reflexivity.
  - destruct (isGithubApiError e); [| reflexivity]. cbn [negb].
    destruct (status_is e 404); [reflexivity |].
    destruct (status_is e 401); reflexivity.
Qed.

(** [getObject] resolves exactly when the key is valid and the fetch
    gives a single entry with a non-empty [content]; the value is that
    content decoded. *)
Theorem getObject_resolved_iff key w v :
  result (getObject this key w) = Resolved v
  <-> validStorageKey key = true
      /\ exists o c,
           answer (request (fetch this key)) w = Ok (DObject o)
           /\ content o = Some c /\ c <> ""
           /\ v = convertBase64ToString c.
Proof.
  unfold getObject, answer. simpl request.
  destruct (validStorageKey key); cbn [negb].
  2: { split; [discriminate | intros [H _]; discriminate]. }
  expose. next_answer resp w' Hget. unfold result. simpl.
  split.
  - intros Hres. split; [reflexivity |].
    destruct resp as [[o | l] | e]; simpl in Hres.
    + destruct (content o) as [c |] eqn:Hc; simpl in Hres; [| discriminate].
      destruct (String.eqb_spec c ""); simpl in Hres; [discriminate |].
      injection Hres as <-. now exists o, c.
    + discriminate.
    + destruct (isGithubApiError e); simpl in Hres; [| discriminate].
      destruct (status_is e 404); [discriminate |].
      destruct (status_is e 401); discriminate.
  - intros (_ & o & c & -> & Hc & Hne & ->). simpl. rewrite Hc. simpl.
    destruct (String.eqb_spec c ""); [contradiction | reflexivity].
Qed.

(** How [getObject] classifies a fetch that throws, on a valid key: an
    API error of status 404 is the not-found message, any other status
    than 404 and 401 the generic API message, and a thrown value that is
    no API error the internal-error message.  One request each time. *)
Theorem getObject_thrown_fetch key w e w' :
  validStorageKey key = true ->
  octokit_request (request (fetch this key)) w = (Throw e, w') ->
  (api_error e 404 ->
     getObject this key w
     = (Rejected (RString OBJECT_NOT_FOUND_MESSAGE), w', [fetch this key]))
  /\ (transient e = true ->
        getObject this key w
        = (Rejected (RString GITHUB_API_ERROR_MESSAGE), w', [fetch this key]))
  /\ (isGithubApiError e = false ->
        getObject this key w
        = (Rejected (RString INTERNAL_ERROR_MESSAGE), w', [fetch this key])).
Proof.
  intros Hkey Hget. simpl in Hget.
  unfold getObject. rewrite Hkey. cbn [negb]. expose. rewrite Hget.
  repeat split.
  - intros [Hapi Hst]. rewrite Hapi, (status_is_eq _ _ Hst). reflexivity.
  - unfold transient. intros Ht.
    apply andb_prop in Ht as [Ht H401]. apply andb_prop in Ht as [Hapi H404].
    apply negb_true_iff in H401, H404. rewrite Hapi, H404, H401. reflexivity.
  - intros ->. reflexivity.
Qed.

(** [getObject] on a folder: the fetch gives an array and the promise is
    rejected with the folder message, whatever the array holds. *)
Theorem getObject_folder key w l w' :
  validStorageKey key = true ->
  octokit_request (request (fetch this key)) w = (Ok (DArray l), w') ->
  getObject this key w
  = (Rejected (RString "Key points to a folder"), w', [fetch this key]).
Proof.
  intros Hkey Hget. simpl in Hget.
  unfold getObject. rewrite Hkey. cbn [negb]. expose. rewrite Hget.
  reflexivity.
Qed.

(** *** [listObjects] *)

(** [listObjects] resolves exactly when the fetch gives an array, with
    that array as it is; a single entry is rejected as not a folder. *)
Theorem listObjects_array_or_not key w :
  (forall l, answer (request (fetch this key)) w = Ok (DArray l) ->
     listObjects this key w
     = (Resolved l, after (request (fetch this key)) w, [fetch this key]))
  /\ (forall o, answer (request (fetch this key)) w = Ok (DObject o) ->
        listObjects this key w
        = (Rejected (RString "Not a folder"),
           after (request (fetch this key)) w, [fetch this key]))
  /\ (forall l, result (listObjects this key w) = Resolved l ->
        answer (request (fetch this key)) w = Ok (DArray l)).
Proof.
  unfold listObjects, answer, after. simpl request. expose.
  next_answer resp w' Hget. simpl.
  repeat split.
  - intros l ->. reflexivity.
  - intros o ->. reflexivity.
  - intros l. unfold result. destruct resp as [[o | l'] | e]; simpl;
      intros H; try discriminate. now injection H as ->.
Qed.

(** *** [putObject] *)

(** What any number of turns of the loop of [putObject] amounts to. *)
Lemma putObject_while_runs key value fuel :
  forall w,
  exists n tail,
    trace (putObject_while this fuel key value false MAX_API_ATTEMPTS w)
    = (repeat (fetch this key) n ++ tail)%list
    /\ (n <= fuel)%nat
    /\ put_tail this key value tail
    /\ forall r,
         result (putObject_while this fuel key value false MAX_API_ATTEMPTS w)
         = Some (Rejected r) -> put_reason r.
Proof.
  unfold put_tail, put_reason.
  induction fuel as [| fuel IH]; intros w.
  - exists 0%nat, []. repeat split; auto. discriminate.
  - rewrite putObject_while_step. expose. next_answer resp w' Hget.
    destruct resp as [d | e].
    + destruct (truthy (data_sha d)).
      * next_answer resp2 w2 Hput.
        exists 1%nat,
          [mkEvent (upload this key value (Some (str (data_sha d)))) true].
        destruct resp2; cbv beta iota zeta; rewrite putObject_while_done;
          unfold result, trace; simpl;
          (repeat split; [lia | eauto | discriminate]).
      * exists 1%nat, []. unfold result, trace.
        destruct (isArray d); [| rewrite putObject_while_done]; simpl;
          (repeat split; [lia | auto | ]); intros r H; try discriminate.
        injection H as <-. auto.
    + destruct (isGithubApiError e); cbn [negb].
      2: { exists 1%nat, []. unfold result, trace. simpl.
           repeat split; [lia | auto |]. intros r H. injection H as <-. auto. }
      destruct (status_is e 404).
      * next_answer resp2 w2 Hput.
        exists 1%nat, [mkEvent (upload this key value None) false].
        destruct resp2; cbv beta iota zeta; rewrite putObject_while_done;
          unfold result, trace; simpl;
          (repeat split; [lia | auto | discriminate]).
      * destruct (status_is e 401).
        { exists 1%nat, []. unfold result, trace. simpl.
          repeat split; [lia | auto |]. intros r H. injection H as <-. auto. }
        destruct (IH w') as (n & tail & Ht & Hn & Htail & Hr).
        destruct (putObject_while this fuel key value false MAX_API_ATTEMPTS w')
          as [[res w3] t].
        unfold result, trace in *. simpl in *. subst t.
        exists (S n), tail. repeat split; [lia | exact Htail | exact Hr].
Qed.

(** The requests of [putObject]: some fetches of the key, then at most
    one PUT to the key carrying the encoded value.  It writes at most
    once, after its last fetch, and never deletes. *)
Theorem putObject_trace_shape fuel key value w :
  exists n tail,
    trace (putObject this fuel key value w)
    = (repeat (fetch this key) n ++ tail)%list
    /\ (n <= fuel)%nat
    /\ put_tail this key value tail.
Proof.
  unfold putObject. destruct (validStorageKey key); cbn [negb].
  - destruct (putObject_while_runs key value fuel w)
      as (n & tail & Ht & Hn & Htail & _).
    now exists n, tail.
  - exists 0%nat, []. unfold put_tail. repeat split; [lia | auto].
Qed.

(** The reasons [putObject] rejects with: the invalid-key, internal-error
    and bad-credentials messages and the folder message.  The rejection
    that follows the loop is never the one taken. *)
Theorem putObject_rejection_reasons fuel key value w r :
  result (putObject this fuel key value w) = Some (Rejected r) ->
  r = RString INVALID_KEY_MESSAGE \/ put_reason r.
Proof.
  unfold putObject. destruct (validStorageKey key); cbn [negb].
  - intros H. right.
    destruct (putObject_while_runs key value fuel w)
      as (n & tail & _ & _ & _ & Hr).
    now apply Hr.
  - unfold result, ret. simpl. intros H. injection H as <-. now left.
Qed.

(** A transient error of the fetch makes [putObject] start again from
    the state the fetch left, with nothing remembered but the request
    sent. *)
Theorem putObject_retries_after_transient_error fuel key value w e w' :
  validStorageKey key = true ->
  octokit_request (request (fetch this key)) w = (Throw e, w') ->
  transient e = true ->
  result (putObject this (S fuel) key value w)
    = result (putObject this fuel key value w')
  /\ world (putObject this (S fuel) key value w)
     = world (putObject this fuel key value w')
  /\ trace (putObject this (S fuel) key value w)
     = fetch this key :: trace (putObject this fuel key value w').
Proof.
  intros Hkey Hget Ht. simpl in Hget. unfold transient in Ht.
  apply andb_prop in Ht as [Ht H401]. apply andb_prop in Ht as [Hapi H404].
  apply negb_true_iff in H401, H404.
  unfold putObject. rewrite Hkey. cbn [negb].
  rewrite putObject_while_step. expose. rewrite Hget.
  rewrite Hapi, H404, H401. cbn [negb].
  destruct (putObject_while this fuel key value false MAX_API_ATTEMPTS w')
    as [[res w3] t].
  repeat split.
Qed.

(** Any other answer to the fetch settles [putObject] in that turn, after
    at most one more request. *)
Theorem putObject_settles_on_decisive_fetch fuel key value w :
  (forall e, answer (request (fetch this key)) w = Throw e ->
             transient e = false) ->
  exists o,
    result (putObject this (S fuel) key value w) = Some o
    /\ (length (trace (putObject this (S fuel) key value w)) <= 2)%nat.
Proof.
  unfold answer. simpl request. intros Hdec.
  unfold putObject. destruct (validStorageKey key); cbn [negb].
  2: { eexists. split; [reflexivity | simpl; lia]. }
  rewrite putObject_while_step. expose. next_answer resp w' Hget.
  simpl in Hdec. unfold result, trace.
  destruct resp as [d | e].
  - destruct (truthy (data_sha d)).
    + next_answer resp2 w2 Hput.
      destruct resp2; cbv beta iota zeta; rewrite putObject_while_done;
        eexists; (split; [reflexivity | simpl; lia]).
    + destruct (isArray d); [| rewrite putObject_while_done];
        eexists; (split; [reflexivity | simpl; lia]).
  - specialize (Hdec e eq_refl). unfold transient in Hdec.
    destruct (isGithubApiError e); cbn [negb].
    2: { eexists. split; [reflexivity | simpl; lia]. }
    destruct (status_is e 404).
    + next_answer resp2 w2 Hput.
      destruct resp2; cbv beta iota zeta; rewrite putObject_while_done;
        eexists; (split; [reflexivity | simpl; lia]).
    + destruct (status_is e 401); [| discriminate].
      eexists. split; [reflexivity | simpl; lia].
Qed.

(** A single entry without a digest: [putObject] resolves and has sent
    nothing but the fetch, so nothing was written. *)
Theorem putObject_entry_without_digest fuel key value w o w' :
  validStorageKey key = true ->
  octokit_request (request (fetch this key)) w = (Ok (DObject o), w') ->
  truthy (sha o) = false ->
  putObject this (S fuel) key value w
  = (Some (Resolved tt), w', [fetch this key]).
Proof.
  intros Hkey Hget Hsha. simpl in Hget.
  unfold putObject. rewrite Hkey. cbn [negb].
  rewrite putObject_while_step. expose. rewrite Hget. simpl.
  rewrite Hsha. rewrite putObject_while_done. reflexivity.
Qed.

(** An unrecognised error of the fetch ends [putObject] at once, however
    much fuel is left: it is not retried. *)
Theorem putObject_unrecognised_error fuel key value w e w' :
  validStorageKey key = true ->
  octokit_request (request (fetch this key)) w = (Throw e, w') ->
  isGithubApiError e = false ->
  putObject this (S fuel) key value w
  = (Some (Rejected (RString INTERNAL_ERROR_MESSAGE)), w', [fetch this key]).
Proof.
  intros Hkey Hget Hapi. simpl in Hget.
  unfold putObject. rewrite Hkey. cbn [negb].
  rewrite putObject_while_step. expose. rewrite Hget, Hapi. reflexivity.
Qed.

(** *** [removeObject] *)

(** Close a disjunction of three equations, the last under a quantifier. *)
Ltac one_of_three :=
  first [ left; reflexivity
        | right; left; reflexivity
        | right; right; eexists; reflexivity ].

(** A run that has settled and whose requests have one of the three
    shapes [removeObject] produces. *)
Lemma settled_run key
    (r : option (Outcome (option string)) * World * list Event) :
  (exists o, result r = Some o) ->
  (trace r = [] \/ trace r = [fetch this key]
   \/ exists s, trace r = [fetch this key; deletion this key s]) ->
  r = r
  /\ (exists o, result r = Some o)
  /\ (trace r = [] \/ trace r = [fetch this key]
      \/ exists s, trace r = [fetch this key; deletion this key s]).
Proof. intros H1 H2. repeat split; assumption. Qed.

Ltac settled :=
  apply settled_run; unfold result, trace; simpl;
  [eexists; reflexivity | one_of_three].

(** The loop of [removeObject] never takes a second turn: more fuel
    changes nothing.  It always settles, sends at most the fetch and one
    DELETE of the key, and never a PUT. *)
Theorem removeObject_single_turn fuel key w :
  removeObject this (S fuel) key w = removeObject this 1 key w
  /\ (exists o, result (removeObject this 1 key w) = Some o)
  /\ (trace (removeObject this 1 key w) = []
      \/ trace (removeObject this 1 key w) = [fetch this key]
      \/ exists s,
           trace (removeObject this 1 key w)
           = [fetch this key; deletion this key s]).
Proof.
  unfold removeObject. destruct (validStorageKey key); cbn [negb].
  2: { settled. }
  simpl. expose.
  next_answer resp w1 Hget. destruct resp as [d | e].
  - next_answer resp2 w2 Hdel. destruct resp2 as [d' | e].
    + settled.
    + destruct (isGithubApiError e); cbn [negb]; [| settled].
      destruct (status_is e 404).
      * rewrite !removeObject_while_done. settled.
      * destruct (status_is e 401); settled.
  - destruct (isGithubApiError e); cbn [negb]; [| settled].
    destruct (status_is e 404).
    + rewrite !removeObject_while_done. settled.
    + destruct (status_is e 401); settled.
Qed.

(** [removeObject] resolves only when the fetch succeeded and the remote
    service accepted the DELETE that carried the fetched digest; the value
    is the fetched [content]. *)
Theorem removeObject_resolved_means_deleted fuel key w c :
  result (removeObject this (S fuel) key w) = Some (Resolved c) ->
  validStorageKey key = true
  /\ exists d d',
       answer (request (fetch this key)) w = Ok d
       /\ answer (request (deletion this key (data_sha d)))
            (after (request (fetch this key)) w) = Ok d'
       /\ c = data_content d
       /\ trace (removeObject this (S fuel) key w)
          = [fetch this key; deletion this key (data_sha d)].
Proof.
  unfold removeObject, answer, after. simpl request.
  destruct (validStorageKey key); cbn [negb]; [| discriminate].
  simpl. expose. unfold result, trace.
  next_answer resp w1 Hget. destruct resp as [d | e]; simpl.
  - next_answer resp2 w2 Hdel. destruct resp2 as [d' | e]; simpl.
    + intros H. injection H as <-. split; [reflexivity |].
      exists d, d'. repeat split. now rewrite Hdel.
    + destruct (isGithubApiError e); cbn [negb]; [| discriminate].
      destruct (status_is e 404).
      * rewrite removeObject_while_done. discriminate.
      * destruct (status_is e 401); discriminate.
  - destruct (isGithubApiError e); cbn [negb]; [| discriminate].
    destruct (status_is e 404).
    + rewrite removeObject_while_done. discriminate.
    + destruct (status_is e 401); discriminate.
Qed.

(** A fetch that throws, on a valid key: an API error of a status other
    than 404 and 401 is rejected with its own message, and a thrown value
    that is no API error with the internal-error message.  Neither is
    tried again. *)
Theorem removeObject_thrown_fetch fuel key w e w' :
  validStorageKey key = true ->
  octokit_request (request (fetch this key)) w = (Throw e, w') ->
  (transient e = true ->
     removeObject this (S fuel) key w
     = (Some (Rejected (RString (message e))), w', [fetch this key]))
  /\ (isGithubApiError e = false ->
        removeObject this (S fuel) key w
        = (Some (Rejected (RString INTERNAL_ERROR_MESSAGE)), w',
           [fetch this key])).
Proof.
  intros Hkey Hget. simpl in Hget.
  unfold removeObject. rewrite Hkey. cbn [negb]. simpl. expose.
  rewrite Hget. split.
  - unfold transient. intros Ht.
    apply andb_prop in Ht as [Ht H401]. apply andb_prop in Ht as [Hapi H404].
    apply negb_true_iff in H401, H404. rewrite Hapi, H404, H401. reflexivity.
  - intros ->. reflexivity.
Qed.

Lemma status_is_unique e n m :
  status_is e n = true -> status_is e m = true -> n = m.
Proof.
  unfold status_is. destruct (status e) as [s |]; [| discriminate].
  intros Hn Hm. apply Z.eqb_eq in Hn, Hm. congruence.
Qed.

(** Close a case whose premise on the thrown error contradicts what is
    known of it. *)
Ltac thrown_case :=
  try unfold transient; intros;
  repeat match goal with
         | H : api_error _ _ |- _ =>
             let Hs := fresh "Hs" in
             destruct H as [? Hs]; apply status_is_eq in Hs
         | H : _ && _ = true |- _ => apply andb_prop in H as [? ?]
         | H : negb _ = true |- _ => apply negb_true_iff in H
         end;
  try congruence;
  match goal with
  | H1 : status_is ?e ?n = true, H2 : status_is ?e ?m = true |- _ =>
      exfalso; pose proof (status_is_unique _ _ _ H1 H2) as Hu;
      discriminate Hu
  end.

(** A DELETE that throws after a fetch that succeeded: status 404 gives
    the generic API message, 401 the bad-credentials message, any other
    status the message of the error, and a thrown value that is no API
    error the internal-error message.  The DELETE is not sent again. *)
Theorem removeObject_thrown_delete fuel key w d w1 e w2 :
  validStorageKey key = true ->
  octokit_request (request (fetch this key)) w = (Ok d, w1) ->
  octokit_request (request (deletion this key (data_sha d))) w1
    = (Throw e, w2) ->
  trace (removeObject this (S fuel) key w)
    = [fetch this key; deletion this key (data_sha d)]
  /\ world (removeObject this (S fuel) key w) = w2
  /\ (api_error e 404 ->
        result (removeObject this (S fuel) key w)
        = Some (Rejected (RString GITHUB_API_ERROR_MESSAGE)))
  /\ (api_error e 401 ->
        result (removeObject this (S fuel) key w)
        = Some (Rejected (RString BAD_CREDENTIALS_MESSAGE)))
  /\ (transient e = true ->
        result (removeObject this (S fuel) key w)
        = Some (Rejected (RString (message e))))
  /\ (isGithubApiError e = false ->
        result (removeObject this (S fuel) key w)
        = Some (Rejected (RString INTERNAL_ERROR_MESSAGE))).
Proof.
  intros Hkey Hget Hdel. simpl in Hget, Hdel.
  unfold removeObject. rewrite Hkey. cbn [negb]. simpl. expose.
  rewrite Hget. rewrite Hdel. unfold result, trace, world.
  destruct (isGithubApiError e) eqn:Hapi; cbn [negb].
  2: { repeat split; thrown_case. }
  destruct (status_is e 404) eqn:H404;
    [rewrite removeObject_while_done
    | destruct (status_is e 401) eqn:H401];
    simpl; repeat split; thrown_case.
Qed.

(** [removeObject] does not check for a folder: when the fetch gives an
    array it sends a DELETE without digest, and if the remote service
    accepts it the promise resolves with no content. *)
Theorem removeObject_folder fuel key w l w1 deleted w2 :
  validStorageKey key = true ->
  octokit_request (request (fetch this key)) w = (Ok (DArray l), w1) ->
  octokit_request (request (deletion this key None)) w1 = (deleted, w2) ->
  trace (removeObject this (S fuel) key w)
    = [fetch this key; deletion this key None]
  /\ (forall d, deleted = Ok d ->
        removeObject this (S fuel) key w
        = (Some (Resolved None), w2,
           [fetch this key; deletion this key None])).
Proof.
  intros Hkey Hget Hdel. simpl in Hget, Hdel.
  unfold removeObject. rewrite Hkey. cbn [negb]. simpl. expose.
  rewrite Hget. simpl. rewrite Hdel. unfold trace.
  destruct deleted as [d | e].
  - split; [reflexivity | intros; reflexivity].
  - destruct (isGithubApiError e); cbn [negb];
      [| split; [reflexivity | discriminate]].
    destruct (status_is e 404).
    + rewrite removeObject_while_done. split; [reflexivity | discriminate].
    + destruct (status_is e 401); (split; [reflexivity | discriminate]).
Qed.

End Operations.

(** *** The constructor *)

(** A client built by the constructor addresses the owner and repository
    of its configuration, and its writes carry the configured committer,
    or the default one when the configuration has none: so for the PUT
    that replaces a file and for the DELETE of [removeObject]. *)
Theorem configured_client_requests {remote : Octokit} {helpers : Helpers}
    {messages : ErrorMessages} dflt args fuel key value w d w1 :
  validStorageKey key = true ->
  octokit_request (GET (cfg_owner args) (cfg_repo args) key) w = (Ok d, w1) ->
  let this := new_GHClient dflt args in
  let who := match cfg_committer args with
             | Some c => Some c
             | None => dflt
             end in
  trace (removeObject this (S fuel) key w)
  = [mkEvent (GET (cfg_owner args) (cfg_repo args) key) true;
     mkEvent (DELETE (cfg_owner args) (cfg_repo args) key who (data_sha d))
       true]
  /\ (truthy (data_sha d) = true ->
        trace (putObject this (S fuel) key value w)
        = [mkEvent (GET (cfg_owner args) (cfg_repo args) key) true;
           mkEvent (PUT (cfg_owner args) (cfg_repo args) key who
                      (convertStringToBase64 value)
                      (Some (str (data_sha d)))) true]).
Proof.
  intros Hkey Hget. cbv zeta.
  set (this := new_GHClient dflt args).
  change (cfg_owner args) with (owner this) in *.
  change (cfg_repo args) with (repo this) in *.
  change (match cfg_committer args with
          | Some c => Some c
          | None => dflt
          end) with (committer this).
  clearbody this. split.
  - unfold removeObject. rewrite Hkey. cbn [negb]. simpl.
    unfold bind, getObjectOctokit, deleteObjectOctokit, send, ret.
    rewrite Hget.
    destruct (octokit_request _ w1) as [[d' | e] w2]; [reflexivity |].
    destruct (isGithubApiError e); cbn [negb]; [| reflexivity].
    destruct (status_is e 404).
    + rewrite removeObject_while_done. reflexivity.
    + destruct (status_is e 401); reflexivity.
  - intros Hsha. unfold putObject. rewrite Hkey. cbn [negb].
    rewrite putObject_while_step.
    unfold bind, getObjectOctokit, replaceObjectOctokit,
      generateUploadParams, send, ret.
    rewrite Hget. rewrite Hsha. unfold bind. cbv beta iota zeta.
    destruct (octokit_request _ w1) as [[d' | e] w2];
      cbv beta iota zeta; rewrite putObject_while_done; reflexivity.
Qed.

(** *** Operations in sequence, on the model repository *)

Lemma erase_written key c files :
  erase key ((key, c) :: files) = erase key files.
Proof. simpl. now rewrite String.eqb_refl. Qed.

Lemma erase_absent key files :
  lookup key files = None -> erase key files = files.
Proof.
  induction files as [| [p c] rest IH]; simpl; [reflexivity |].
  destruct (p =? key)%string; [discriminate |].
  intros H. now rewrite IH.
Qed.

(** What [putObject] does in the model repository to a file: the PUT
    carries the digest just fetched and replaces the content. *)
Lemma putObject_replaces {helpers : Helpers} {messages : ErrorMessages}
    this fuel key value old files :
  validStorageKey key = true ->
  lookup key files = Some old ->
  putObject (remote := repository) this (S fuel) key value files
  = (Some (Resolved tt),
     (key, convertStringToBase64 value) :: erase key files,
     [fetch this key;
      mkEvent (upload this key value (Some (digest old))) true]).
Proof.
  intros Hkey Hfile.
  unfold putObject. rewrite Hkey. cbn [negb].
  rewrite putObject_while_step.
  unfold bind, getObjectOctokit, send. simpl octokit_request.
  rewrite Hfile. simpl.
  unfold replaceObjectOctokit, generateUploadParams, bind, send, ret.
  simpl octokit_request. rewrite Hfile. simpl.
  rewrite String.eqb_refl. simpl.
  rewrite putObject_while_done. reflexivity.
Qed.

(** What [getObject] does in the model repository to a key that names
    neither a file nor a folder. *)
Lemma getObject_misses {helpers : Helpers} {messages : ErrorMessages}
    this key files :
  validStorageKey key = true ->
  isGithubApiError not_found = true ->
  lookup key files = None ->
  children key files = [] ->
  getObject (remote := repository) this key files
  = (Rejected (RString OBJECT_NOT_FOUND_MESSAGE), files, [fetch this key]).
Proof.
  intros Hkey Hapi Hfile Hfolder.
  unfold getObject. rewrite Hkey. cbn [negb].
  unfold bind, getObjectOctokit, send. simpl octokit_request.
  rewrite Hfile, Hfolder. rewrite Hapi. reflexivity.
Qed.

(** Written twice and read: the second [putObject] fetches the digest the
    first one left and replaces the file, and [getObject] gives the
    second value.  With an encoding that decoding inverts and that is
    empty on the empty string only, on a fresh valid key. *)
Theorem overwrite_then_read {helpers : Helpers} {messages : ErrorMessages}
    this fuel key value1 value2 files :
  validStorageKey key = true ->
  isGithubApiError not_found = true ->
  (forall s, convertBase64ToString (convertStringToBase64 s) = s) ->
  (forall s, convertStringToBase64 s = "" -> s = "") ->
  lookup key files = None ->
  children key files = [] ->
  value2 <> "" ->
  put_put_get (remote := repository) this (S fuel) key value1 value2 files
  = ((Some (Resolved tt), Some (Resolved tt), Resolved value2),
     (key, convertStringToBase64 value2) :: files,
     [fetch this key;
      mkEvent (upload this key value1 None) false;
      fetch this key;
      mkEvent (upload this key value2
                 (Some (digest (convertStringToBase64 value1)))) true;
      fetch this key]).
Proof.
  intros Hkey Hapi Hinv Hempty Hfile Hfolder Hvalue.
  unfold put_put_get, bind.
  rewrite putObject_creates by assumption.
  rewrite (putObject_replaces _ _ _ _ (convertStringToBase64 value1))
    by (assumption || apply lookup_written).
  rewrite erase_written, (erase_absent _ _ Hfile).
  rewrite (getObject_reads _ _ (convertStringToBase64 value2))
    by (assumption || apply lookup_written).
  destruct (String.eqb_spec (convertStringToBase64 value2) "") as [He | _].
  - now apply Hempty in He.
  - simpl. now rewrite Hinv.
Qed.

(** Written, removed and read: [removeObject] resolves with the encoded
    value, not the value, the repository is as it was before, and
    [getObject] rejects with the not-found message.  On a fresh valid
    key. *)
Theorem write_remove_read {helpers : Helpers} {messages : ErrorMessages}
    this fuel key value files :
  validStorageKey key = true ->
  isGithubApiError not_found = true ->
  lookup key files = None ->
  children key files = [] ->
  put_remove_get (remote := repository) this (S fuel) key value files
  = ((Some (Resolved tt),
      Some (Resolved (Some (convertStringToBase64 value))),
      Rejected (RString OBJECT_NOT_FOUND_MESSAGE)),
     files,
     [fetch this key;
      mkEvent (upload this key value None) false;
      fetch this key;
      deletion this key (Some (digest (convertStringToBase64 value)));
      fetch this key]).
Proof.
  intros Hkey Hapi Hfile Hfolder.
  unfold put_remove_get, bind.
  rewrite putObject_creates by assumption.
  rewrite (removeObject_erases _ _ _ (convertStringToBase64 value))
    by (assumption || apply lookup_written).
  rewrite erase_written, (erase_absent _ _ Hfile).
  rewrite getObject_misses by assumption.
  reflexivity.
Qed.

(** ** The further properties at concrete inputs *)

(** Reading [notes/a.txt], which holds the base64 of [hello]. *)
Lemma getObject_resolved_iff_witness :
  result (getObject (remote := repository) (helpers := spec_helpers)
            (messages := sample_messages) acme "notes/a.txt" notes)
  = Resolved "hello".
Proof.
  apply (proj2 (getObject_resolved_iff (remote := repository)
                  (helpers := spec_helpers) (messages := sample_messages)
                  acme "notes/a.txt" notes "hello")).
  split; [reflexivity |].
  exists (mkData (Some "sha:aGVsbG8=") (Some "aGVsbG8=")), "aGVsbG8=".
  repeat split. discriminate.
Defined.

(** Reading a key the repository does not have. *)
Lemma getObject_thrown_fetch_witness :
  getObject (remote := repository) (helpers := spec_helpers)
    (messages := sample_messages) acme "notes/b.txt" notes
  = (Rejected (RString "Object not found"), notes, [fetch acme "notes/b.txt"]).
Proof.
  apply (proj1 (getObject_thrown_fetch (remote := repository)
                  (helpers := spec_helpers) (messages := sample_messages)
                  acme "notes/b.txt" notes not_found notes
                  eq_refl eq_refl)).
  split; reflexivity.
Defined.

(** Reading the folder [notes]. *)
Lemma getObject_folder_witness :
  getObject (remote := repository) (helpers := spec_helpers)
    (messages := sample_messages) acme "notes" notes
  = (Rejected (RString "Key points to a folder"), notes, [fetch acme "notes"]).
Proof.
  apply (getObject_folder (remote := repository) (helpers := spec_helpers)
           (messages := sample_messages) acme "notes" notes
           [mkData (Some "sha:aGVsbG8=") None] notes);
    reflexivity.
Defined.

(** Listing the folder [notes] and the file [notes/a.txt]. *)
Lemma listObjects_array_or_not_witness :
  listObjects (remote := repository) acme "notes" notes
  = (Resolved [mkData (Some "sha:aGVsbG8=") None], notes, [fetch acme "notes"])
  /\ listObjects (remote := repository) acme "notes/a.txt" notes
     = (Rejected (RString "Not a folder"), notes, [fetch acme "notes/a.txt"]).
Proof.
  split.
  - apply (proj1 (listObjects_array_or_not (remote := repository)
                    acme "notes" notes)).
    reflexivity.
  - apply (proj1 (proj2 (listObjects_array_or_not (remote := repository)
                           acme "notes/a.txt" notes))
             (mkData (Some "sha:aGVsbG8=") (Some "aGVsbG8="))).
    reflexivity.
Defined.

(** A rejection for bad credentials is one of the listed reasons. *)
Lemma putObject_rejection_reasons_witness :
  RString "Bad credentials"
  = RString (INVALID_KEY_MESSAGE (ErrorMessages := sample_messages))
  \/ put_reason (messages := sample_messages) (RString "Bad credentials").
Proof.
  apply (putObject_rejection_reasons (remote := always (Throw unauthorized))
           (helpers := spec_helpers) (messages := sample_messages)
           acme 3%nat "notes/a.txt" "hello" 0%nat).
  reflexivity.
Defined.

(** A 500 and then 404s: the second turn creates the file. *)
Lemma putObject_retries_after_transient_error_witness :
  result (putObject
            (remote := scripted (answers [Throw server_error] (Throw not_found)))
            (helpers := spec_helpers) (messages := sample_messages)
            acme 2 "notes/a.txt" "hello" 0%nat)
  = Some (Resolved tt)
  /\ trace (putObject
              (remote := scripted
                 (answers [Throw server_error] (Throw not_found)))
              (helpers := spec_helpers) (messages := sample_messages)
              acme 2 "notes/a.txt" "hello" 0%nat)
     = [fetch acme "notes/a.txt"; fetch acme "notes/a.txt";
        mkEvent (upload (helpers := spec_helpers) acme "notes/a.txt" "hello"
                   None) false].
Proof.
  destruct (putObject_retries_after_transient_error
              (remote := scripted
                 (answers [Throw server_error] (Throw not_found)))
              (helpers := spec_helpers) (messages := sample_messages)
              acme 1%nat "notes/a.txt" "hello" 0%nat server_error 1%nat
              eq_refl eq_refl eq_refl) as (Hres & _ & Htrace).
  split.
  - rewrite Hres. reflexivity.
  - rewrite Htrace. reflexivity.
Defined.

(** A 401 settles [putObject] in the first of its turns. *)
Lemma putObject_settles_on_decisive_fetch_witness :
  exists o,
    result (putObject (remote := always (Throw unauthorized))
              (helpers := spec_helpers) (messages := sample_messages)
              acme 5 "notes/a.txt" "hello" 0%nat) = Some o
    /\ (length (trace (putObject (remote := always (Throw unauthorized))
                         (helpers := spec_helpers)
                         (messages := sample_messages)
                         acme 5 "notes/a.txt" "hello" 0%nat)) <= 2)%nat.
Proof.
  apply (putObject_settles_on_decisive_fetch
           (remote := always (Throw unauthorized))
           (helpers := spec_helpers) (messages := sample_messages)
           acme 4%nat "notes/a.txt" "hello" 0%nat).
  intros e He. injection He as <-. reflexivity.
Defined.

(** An entry that comes without a digest. *)
Lemma putObject_entry_without_digest_witness :
  putObject (remote := always (Ok (DObject (mkData None (Some "b2xk")))))
    (helpers := spec_helpers) (messages := sample_messages)
    acme 1 "notes/a.txt" "hello" 0%nat
  = (Some (Resolved tt), 1%nat, [fetch acme "notes/a.txt"]).
Proof.
  apply (putObject_entry_without_digest
           (remote := always (Ok (DObject (mkData None (Some "b2xk")))))
           (helpers := spec_helpers) (messages := sample_messages)
           acme 0%nat "notes/a.txt" "hello" 0%nat
           (mkData None (Some "b2xk")) 1%nat);
    reflexivity.
Defined.

(** A thrown value without a status. *)
Lemma putObject_unrecognised_error_witness :
  putObject (remote := always (Throw (mkThrown None "socket hang up")))
    (helpers := spec_helpers) (messages := sample_messages)
    acme 10 "notes/a.txt" "hello" 0%nat
  = (Some (Rejected (RString "Internal error")), 1%nat,
     [fetch acme "notes/a.txt"]).
Proof.
  apply (putObject_unrecognised_error
           (remote := always (Throw (mkThrown None "socket hang up")))
           (helpers := spec_helpers) (messages := sample_messages)
           acme 9%nat "notes/a.txt" "hello" 0%nat
           (mkThrown None "socket hang up") 1%nat);
    reflexivity.
Defined.

(** Removing [notes/a.txt]: the DELETE was sent and accepted. *)
Lemma removeObject_resolved_means_deleted_witness :
  validStorageKey (Helpers := spec_helpers) "notes/a.txt" = true
  /\ exists d d',
       answer (remote := repository) (request (fetch acme "notes/a.txt")) notes
       = Ok d
       /\ answer (remote := repository)
            (request (deletion acme "notes/a.txt" (data_sha d)))
            (after (remote := repository)
               (request (fetch acme "notes/a.txt")) notes) = Ok d'
       /\ Some "aGVsbG8=" = data_content d
       /\ trace (removeObject (remote := repository)
                   (helpers := spec_helpers) (messages := sample_messages)
                   acme 1 "notes/a.txt" notes)
          = [fetch acme "notes/a.txt";
             deletion acme "notes/a.txt" (data_sha d)].
Proof.
  apply (removeObject_resolved_means_deleted (remote := repository)
           (helpers := spec_helpers) (messages := sample_messages)
           acme 0%nat "notes/a.txt" notes (Some "aGVsbG8=")).
  reflexivity.
Defined.

(** A 500 on the fetch comes back as its message. *)
Lemma removeObject_thrown_fetch_witness :
  removeObject (remote := always (Throw server_error))
    (helpers := spec_helpers) (messages := sample_messages)
    acme 10 "notes/a.txt" 0%nat
  = (Some (Rejected (RString "Server Error")), 1%nat,
     [fetch acme "notes/a.txt"]).
Proof.
  apply (proj1 (removeObject_thrown_fetch
                  (remote := always (Throw server_error))
                  (helpers := spec_helpers) (messages := sample_messages)
                  acme 9%nat "notes/a.txt" 0%nat server_error 1%nat
                  eq_refl eq_refl)).
  reflexivity.
Defined.

(** A 409 on the DELETE comes back as its message. *)
Lemma removeObject_thrown_delete_witness :
  result (removeObject
            (remote := scripted (answers [file_abc] (Throw conflict)))
            (helpers := spec_helpers) (messages := sample_messages)
            acme 10 "notes/a.txt" 0%nat)
  = Some (Rejected (RString "Conflict")).
Proof.
  apply (removeObject_thrown_delete
           (remote := scripted (answers [file_abc] (Throw conflict)))
           (helpers := spec_helpers) (messages := sample_messages)
           acme 9%nat "notes/a.txt" 0%nat
           (DObject (mkData (Some "abc") (Some "b2xk"))) 1%nat conflict 2%nat
           eq_refl eq_refl eq_refl).
  reflexivity.
Defined.

(** Removing a folder against a service that accepts the DELETE. *)
Lemma removeObject_folder_witness :
  removeObject
    (remote := scripted (answers [Ok (DArray [])]
                           (Ok (DObject (mkData None None)))))
    (helpers := spec_helpers) (messages := sample_messages)
    acme 1 "notes" 0%nat
  = (Some (Resolved None), 2%nat,
     [fetch acme "notes"; deletion acme "notes" None]).
Proof.
  apply (proj2 (removeObject_folder
                  (remote := scripted (answers [Ok (DArray [])]
                                         (Ok (DObject (mkData None None)))))
                  (helpers := spec_helpers) (messages := sample_messages)
                  acme 0%nat "notes" 0%nat [] 1%nat
                  (Ok (DObject (mkData None None))) 2%nat
                  eq_refl eq_refl eq_refl)
           (DObject (mkData None None))).
  reflexivity.
Defined.

(** A configuration without committer: the default one signs the DELETE. *)
Lemma configured_client_requests_witness :
  trace (removeObject (remote := repository) (helpers := spec_helpers)
           (messages := sample_messages) acme 1 "notes/a.txt" notes)
  = [mkEvent (GET "acme" "data" "notes/a.txt") true;
     mkEvent (DELETE "acme" "data" "notes/a.txt"
                (Some (mkCommitter "system" "system@example.com"))
                (Some "sha:aGVsbG8=")) true].
Proof.
  apply (configured_client_requests (remote := repository)
           (helpers := spec_helpers) (messages := sample_messages)
           (Some (mkCommitter "system" "system@example.com"))
           (mkConfiguration "acme" "data" "token" None)
           0%nat "notes/a.txt" "hello" notes
           (DObject (mkData (Some "sha:aGVsbG8=") (Some "aGVsbG8="))) notes
           eq_refl eq_refl).
Defined.

(** [hello] and then [world] written to a fresh key. *)
Lemma overwrite_then_read_witness :
  put_put_get (remote := repository) (helpers := spec_helpers)
    (messages := sample_messages) acme 1 "notes/a.txt" "hello" "world" []
  = ((Some (Resolved tt), Some (Resolved tt), Resolved "world"),
     [("notes/a.txt", "d29ybGQ=")],
     [fetch acme "notes/a.txt";
      mkEvent (upload (helpers := spec_helpers) acme "notes/a.txt" "hello"
                 None) false;
      fetch acme "notes/a.txt";
      mkEvent (upload (helpers := spec_helpers) acme "notes/a.txt" "world"
                 (Some "sha:aGVsbG8=")) true;
      fetch acme "notes/a.txt"]).
Proof.
  apply (overwrite_then_read (helpers := spec_helpers)
           (messages := sample_messages) acme 0%nat "notes/a.txt"
           "hello" "world" []).
  - reflexivity.
  - reflexivity.
  - exact base64_decode_encode.
  - intros s. apply base64_encode_empty.
  - reflexivity.
  - reflexivity.
  - discriminate.
Defined.

(** [hello] written to a fresh key, removed and read. *)
Lemma write_remove_read_witness :
  put_remove_get (remote := repository) (helpers := spec_helpers)
    (messages := sample_messages) acme 1 "notes/a.txt" "hello" []
  = ((Some (Resolved tt), Some (Resolved (Some "aGVsbG8=")),
      Rejected (RString "Object not found")),
     [],
     [fetch acme "notes/a.txt";
      mkEvent (upload (helpers := spec_helpers) acme "notes/a.txt" "hello"
                 None) false;
      fetch acme "notes/a.txt";
      deletion acme "notes/a.txt" (Some "sha:aGVsbG8=");
      fetch acme "notes/a.txt"]).
Proof.
  apply (write_remove_read (helpers := spec_helpers)
           (messages := sample_messages) acme 0%nat "notes/a.txt" "hello" []);
    reflexivity.
Defined.


(** ** A 401 that is not reported as bad credentials *)

Section Unauthorized.

Context {remote : Octokit} {helpers : Helpers} {messages : ErrorMessages}.
Variable this : GHClient.

(** C3, as the code has it: a 401 of the remote client does not always
    come back as [BAD_CREDENTIALS_MESSAGE].  [listObjects] has no [catch]:
    when its fetch throws an API error of status 401 the promise is
    rejected, after that one request, with the thrown error itself and not
    with the message its sibling operations give.  [putObject] loses a 401
    thrown by the PUT that replaces a file: [replaceObjectOctokit] turns
    it into [false], which nobody reads, and the promise resolves. *)
Theorem unauthorized_not_reported key value fuel w e w1 :
  api_error e 401 ->
  (octokit_request (request (fetch this key)) w = (Throw e, w1) ->
     listObjects this key w = (Rejected (RThrown e), w1, [fetch this key])
     /\ result (listObjects this key w)
        <> Rejected (RString BAD_CREDENTIALS_MESSAGE))
  /\ (validStorageKey key = true ->
      forall o w2,
        octokit_request (request (fetch this key)) w = (Ok (DObject o), w1) ->
        truthy (sha o) = true ->
        octokit_request (upload this key value (Some (str (sha o)))) w1
          = (Throw e, w2) ->
        putObject this (S fuel) key value w
        = (Some (Resolved tt), w2,
           [fetch this key;
            mkEvent (upload this key value (Some (str (sha o)))) true])).
Proof.
  intros _. split.
  - intros Hget. simpl in Hget.
    assert (Hrun : listObjects this key w
                   = (Rejected (RThrown e), w1, [fetch this key])).
    { unfold listObjects, listObjectsOctokit, getObjectOctokit, bind, send,
        ret. rewrite Hget. reflexivity. }
    rewrite Hrun. split; [reflexivity | discriminate].
  - intros Hkey o w2 Hget Hsha Hput. simpl in Hget. unfold upload in Hput.
    unfold putObject. rewrite Hkey. cbn [negb].
    rewrite putObject_while_step.
    unfold bind, getObjectOctokit, send. rewrite Hget.
    cbn [data_sha]. rewrite Hsha.
    unfold replaceObjectOctokit, generateUploadParams, bind, send, ret.
    rewrite Hput. cbv beta iota zeta.
    rewrite putObject_while_done. reflexivity.
Qed.

End Unauthorized.

(** Listing [notes] against a service that answers every request with a
    401, and replacing a file against one that answers the PUT with it. *)
Lemma unauthorized_not_reported_witness :
  (listObjects (remote := always (Throw unauthorized)) acme "notes" 0%nat
   = (Rejected (RThrown unauthorized), 1%nat, [fetch acme "notes"])
   /\ result (listObjects (remote := always (Throw unauthorized))
                acme "notes" 0%nat)
      <> Rejected (RString "Bad credentials"))
  /\ putObject (remote := scripted (answers [file_abc] (Throw unauthorized)))
       (helpers := spec_helpers) (messages := sample_messages)
       acme 1 "notes/a.txt" "hello" 0%nat
     = (Some (Resolved tt), 2%nat,
        [fetch acme "notes/a.txt";
         mkEvent (upload (helpers := spec_helpers) acme "notes/a.txt" "hello"
                    (Some "abc")) true]).
Proof.
  split.
  - apply (proj1 (unauthorized_not_reported
                    (remote := always (Throw unauthorized))
                    (helpers := spec_helpers) (messages := sample_messages)
                    acme "notes" "hello" 0%nat 0%nat unauthorized 1%nat
                    (conj eq_refl eq_refl))).
    reflexivity.
  - apply (proj2 (unauthorized_not_reported
                    (remote := scripted
                       (answers [file_abc] (Throw unauthorized)))
                    (helpers := spec_helpers) (messages := sample_messages)
                    acme "notes/a.txt" "hello" 0%nat 0%nat unauthorized 1%nat
                    (conj eq_refl eq_refl))
             eq_refl (mkData (Some "abc") (Some "b2xk")) 2%nat);
      reflexivity.
Defined.
